(** * Fibre Channel link-layer framing (net/802/fc.c)

    A shallow embedding of [fc_header], [fc_header_ops], [fc_setup],
    [alloc_fcdev_mq] and [alloc_fcdev], and the properties of the
    header-synthesis contract proved over it.

    The socket buffer is the byte array between [skb->head] and [skb->end]
    together with the offset of [skb->data]; pointers into it are offsets.
    Code that works on the buffer runs in a state monad over it that stops
    at a fault: a kernel panic, or an access outside of the object
    addressed. What [fc.c] takes from the kernel headers is either a
    parameter of the development (the constants whose values play no part)
    or modelled as the specification describes it (the layout of the two
    headers, [skb_push], and the two Ethernet helpers). *)

From Stdlib Require Import ZArith Lia Bool String.
From Stdlib Require Import Init.Byte Strings.Byte.
From stdpp Require Import base list.

Local Open Scope nat_scope.

(* ===================================================================== *)
(** ** Bytes and byte order *)
(* ===================================================================== *)

(** Truncation of an integer to its low eight bits, as a store through a
    [__u8] lvalue does. *)
Definition byte_of_Z (z : Z) : byte :=
  default x00 (Byte.of_N (Z.to_N (z mod 256))).

Definition Z_of_byte (b : byte) : Z := Z.of_N (Byte.to_N b).

(** [htons x] as the two bytes a [__be16] holding it occupies in memory:
    most significant byte at the lower address. *)
Definition htons (x : Z) : list byte :=
  [byte_of_Z (Z.shiftr x 8); byte_of_Z x].

(** Big-endian decoding of a byte string. *)
Definition be_decode (bs : list byte) : Z :=
  fold_left (fun acc b => (acc * 256 + Z_of_byte b)%Z) bs 0%Z.

(* ===================================================================== *)
(** ** Socket buffers and the memory operations on them *)
(* ===================================================================== *)

(** A linear socket buffer. [head] holds the bytes of the allocation from
    [skb->head] up to [skb->end]; [data] is [skb->data - skb->head]; [len]
    is [skb->len]. The bytes of [head] below [data] are the headroom, the
    bytes from [data] on are the frame built so far. *)
Record sk_buff := {
  head : list byte;
  data : nat;
  len  : nat
}.

(** The ways a call can leave the defined behaviour of the C program. *)
Inductive fault :=
  | skb_under_panic   (* skb_push below skb->head: the kernel panics *)
  | bad_access.       (* a load or store outside the object it addresses *)

Inductive outcome (A : Type) :=
  | Ok (a : A)
  | Fault (f : fault).
Arguments Ok {A} a.
Arguments Fault {A} f.

(** Code that works on one socket buffer: the buffer is threaded through,
    a fault stops the run. *)
Definition skbM (A : Type) := sk_buff -> outcome (A * sk_buff).

Definition ret {A} (a : A) : skbM A := fun skb => Ok (a, skb).

Definition bind {A B} (m : skbM A) (k : A -> skbM B) : skbM B :=
  fun skb =>
    match m skb with
    | Ok (a, skb') => k a skb'
    | Fault f => Fault f
    end.

Definition fail {A} (f : fault) : skbM A := fun _ => Fault f.

Definition faults {A} (o : outcome A) : Prop := exists f, o = Fault f.

Notation "x <- m ;; k" := (bind m (fun x => k))
  (at level 20, m at level 99, k at level 200, only parsing).
Notation "m ;; k" := (bind m (fun _ => k))
  (at level 100, k at level 200, right associativity, only parsing).

(** Modelled from the spec: [skb_push], whose definition
    (net/core/skbuff.c) is not in [fc.c], reserves [n] bytes at the front of
    the frame, which grows backward from its current start into the
    headroom; the bytes reserved are not touched. A buffer whose headroom is
    shorter than [n] cannot grow: the kernel panics. The result is the new
    start of the frame. [skb->len] is bounded by the size of the buffer and
    does not wrap. *)
Definition skb_push (n : nat) : skbM nat :=
  fun skb =>
    if data skb <? n then Fault skb_under_panic
    else Ok (data skb - n,
             {| head := head skb; data := data skb - n; len := len skb + n |}).

(** A store of the bytes [bs] at offset [p] of the buffer. *)
Definition store_bytes (p : nat) (bs : list byte) : skbM unit :=
  fun skb =>
    if p + length bs <=? length (head skb)
    then Ok (tt, {| head := list_inserts p bs (head skb);
                    data := data skb; len := len skb |})
    else Fault bad_access.

Definition store_u8 (p : nat) (b : byte) : skbM unit := store_bytes p [b].

(** A pointer to an array inside the buffer: the offset of the array and
    its size. A [memcpy] or [memset] of more bytes than the array it is
    given holds leaves the array, which is a fault. *)
Record ptr := {
  addr   : nat;
  extent : nat
}.

(** The member of size [size] at offset [off] of the structure at [base]. *)
Definition field (base off size : nat) : ptr :=
  {| addr := base + off; extent := size |}.

(** [memcpy(dst, src, n)] into the buffer; [src] must hold [n] bytes. *)
Definition memcpy (dst : ptr) (src : list byte) (n : nat) : skbM unit :=
  if (n <=? extent dst) && (n <=? length src)
  then store_bytes (addr dst) (take n src)
  else fail bad_access.

(** [memset(dst, c, n)] into the buffer. *)
Definition memset (dst : ptr) (c : byte) (n : nat) : skbM unit :=
  if n <=? extent dst
  then store_bytes (addr dst) (replicate n c)
  else fail bad_access.

(** The [n] bytes of the buffer at offset [p]. *)
Definition bytes_at (skb : sk_buff) (p n : nat) : list byte :=
  take n (drop p (head skb)).

(** The same, relative to the start of the frame. *)
Definition frame_bytes (skb : sk_buff) (off n : nat) : list byte :=
  bytes_at skb (data skb + off) n.

(* ===================================================================== *)
(** ** Layout of the headers *)
(* ===================================================================== *)

(** Modelled from the spec: the hardware header [struct fch_hdr], declared
    in linux/if_fc.h and not in [fc.c], is the destination address followed
    by the source address, 6 bytes each, 12 bytes in all. *)
Definition FC_ALEN : nat := 6.
Definition fch_daddr : nat := 0.
Definition fch_saddr : nat := FC_ALEN.
Definition sizeof_fch_hdr : nat := FC_ALEN + FC_ALEN.

(** Modelled from the spec: the LLC/SNAP sub-header [struct fcllc], declared
    in linux/if_fc.h and not in [fc.c], is dsap, ssap, control, a 3-byte
    organization identifier and a 2-byte protocol type, 8 bytes in all. *)
Definition fcllc_dsap : nat := 0.
Definition fcllc_ssap : nat := 1.
Definition fcllc_llc : nat := 2.
Definition fcllc_protid : nat := 3.
Definition sizeof_protid : nat := 3.
Definition fcllc_ethertype : nat := 6.
Definition sizeof_fcllc : nat := 8.

(** Modelled from the spec: [FC_HLEN], a macro of linux/if_fc.h that is not
    in [fc.c], is the fixed header length of the device, which is the
    hardware-header size. *)
Definition FC_HLEN_spec : Z := Z.of_nat sizeof_fch_hdr.

(** Modelled from the spec: [eth_broadcast_addr], defined in
    linux/etherdevice.h and not in [fc.c], writes the standard all-ones
    pattern, which has the length of the configured hardware address,
    6 bytes. An array shorter than that is left as long as it is. *)
Definition ETH_ALEN : nat := 6.
Definition eth_broadcast_addr (addr : list byte) : list byte :=
  list_inserts 0 (replicate ETH_ALEN xff) addr.

(** The size of the address arrays of [struct net_device]. *)
Definition MAX_ADDR_LEN : nat := 32.

(* ===================================================================== *)
(** ** Devices *)
(* ===================================================================== *)

(** [dev->header_ops] points to a table of operations; the tables that
    exist are named. *)
Inductive header_ops_ref :=
  | no_header_ops
  | fc_header_ops_ref.    (* &fc_header_ops *)

Record net_device := {
  header_ops      : header_ops_ref;
  type            : Z;
  hard_header_len : Z;
  mtu             : Z;
  addr_len        : nat;
  tx_queue_len    : Z;
  flags           : Z;
  broadcast       : list byte;
  dev_addr        : list byte
}.

(** The result of an address validation. *)
Inductive validate_result :=
  | AddressOk
  | InvalidAddress.

Record header_ops_tbl := {
  create   : sk_buff -> net_device -> Z -> option (list byte) ->
             option (list byte) -> Z -> outcome (Z * sk_buff);
  validate : list byte -> validate_result
}.

(** Modelled from the spec: [eth_validate_addr], defined in
    net/ethernet/eth.c and not in [fc.c], checks that a configured address
    is of correct length and not the all-zero address, and fails with
    [InvalidAddress] when that is violated. *)
Definition is_zero_addr (addr : list byte) : bool :=
  forallb (Byte.eqb x00) addr.

Definition eth_validate_addr (addr : list byte) : validate_result :=
  if negb (length addr =? ETH_ALEN) then InvalidAddress
  else if is_zero_addr addr then InvalidAddress
  else AddressOk.

(** A device as [fc_setup] leaves it, with the hardware address
    11:22:33:44:55:66; a buffer with 32 bytes of used headroom in front of a
    4-byte frame; and a destination address. They serve as inputs on which
    the results below are instantiated. *)
Definition example_dev : net_device :=
  {| header_ops := fc_header_ops_ref;
     type := 6; hard_header_len := 20; mtu := 2024; addr_len := 6;
     tx_queue_len := 100; flags := 2;
     broadcast := replicate 6 xff ++ replicate 26 x00;
     dev_addr := [x11; x22; x33; x44; x55; x66] ++ replicate 26 x00 |}.

Definition example_skb : sk_buff :=
  {| head := replicate 32 x5a ++ [x45; x00; x00; x14];
     data := 32; len := 4 |}.

Definition example_skb' : sk_buff :=
  {| head := replicate 32 x5a ++ [x45; x00; x00; x14; x99; x99];
     data := 32; len := 4 |}.

Definition example_daddr : list byte := [xaa; xbb; xcc; xdd; xee; xff].

Definition example_blank_dev : net_device :=
  {| header_ops := no_header_ops;
     type := 0; hard_header_len := 0; mtu := 0; addr_len := 0;
     tx_queue_len := 0; flags := 0;
     broadcast := replicate 32 x00;
     dev_addr := replicate 32 x00 |}.

(** A device with a 4-byte hardware address, a device that differs from
    [example_dev] in its address and flags, and a buffer with 12 bytes of
    headroom only. *)
Definition example_short_dev : net_device :=
  {| header_ops := fc_header_ops_ref;
     type := 6; hard_header_len := 20; mtu := 2024; addr_len := 4;
     tx_queue_len := 100; flags := 2;
     broadcast := replicate 6 xff ++ replicate 26 x00;
     dev_addr := [x11; x22; x33; x44] ++ replicate 28 x00 |}.

Definition example_other_dev : net_device :=
  {| header_ops := fc_header_ops_ref;
     type := 6; hard_header_len := 20; mtu := 1500; addr_len := 6;
     tx_queue_len := 10; flags := 3;
     broadcast := replicate 32 xff;
     dev_addr := [x77; x88; x99; xaa; xbb; xcc] ++ replicate 26 x00 |}.

Definition example_tight_skb : sk_buff :=
  {| head := replicate 12 x5a ++ [x45; x00; x00; x14];
     data := 12; len := 4 |}.

Definition example_saddr : list byte := [x01; x02; x03; x04; x05; x06].

Section FibreChannel.

(** The constants that [fc.c] takes from the kernel headers and whose
    values play no part. [EXTENDED_SAP] and [UI_CMD] are values of the
    one-byte fields they are stored to; [FC_HLEN] is the header length of
    linux/if_fc.h. *)
Variables ETH_P_IP ETH_P_ARP : Z.
Variables EXTENDED_SAP UI_CMD : byte.
Variables ARPHRD_IEEE802 FC_HLEN IFF_BROADCAST NET_NAME_ENUM : Z.

(** The header length [fc_header] chooses for a protocol type. *)
Definition uses_snap (type : Z) : bool :=
  (type =? ETH_P_IP)%Z || (type =? ETH_P_ARP)%Z.

Definition fc_hdr_len (type : Z) : nat :=
  if uses_snap type then sizeof_fch_hdr + sizeof_fcllc else sizeof_fch_hdr.

(** [fc_header] in two parts. The conditional on the protocol type reserves
    the header, fills in the LLC/SNAP sub-header where there is one, and
    yields [fch] and [hdr_len]. *)
Definition fc_header_reserve (type : Z) : skbM (nat * nat) :=
  if (type =? ETH_P_IP)%Z || (type =? ETH_P_ARP)%Z then
    let hdr_len := sizeof_fch_hdr + sizeof_fcllc in
    fch <- skb_push hdr_len ;;
    let fcllc := fch + sizeof_fch_hdr in
    store_u8 (fcllc + fcllc_ssap) EXTENDED_SAP ;;
    store_u8 (fcllc + fcllc_dsap) EXTENDED_SAP ;;
    store_u8 (fcllc + fcllc_llc) UI_CMD ;;
    memset (field fcllc fcllc_protid sizeof_protid) x00 sizeof_protid ;;
    store_bytes (fcllc + fcllc_ethertype) (htons type) ;;
    ret (fch, hdr_len)
  else
    let hdr_len := sizeof_fch_hdr in
    fch <- skb_push hdr_len ;;
    ret (fch, hdr_len).

(** The statements after the conditional copy the source address, then the
    destination address when there is one, and return. An absent address is
    a [NULL] pointer. *)
Definition fc_header_addrs (dev : net_device)
    (daddr saddr : option (list byte)) (fch hdr_len : nat) : skbM Z :=
  match saddr with
  | Some saddr => memcpy (field fch fch_saddr FC_ALEN) saddr (addr_len dev)
  | None => memcpy (field fch fch_saddr FC_ALEN) (dev_addr dev) (addr_len dev)
  end ;;
  match daddr with
  | Some daddr =>
      memcpy (field fch fch_daddr FC_ALEN) daddr (addr_len dev) ;;
      ret (Z.of_nat hdr_len)
  | None => ret (- Z.of_nat hdr_len)%Z
  end.

Definition fc_header (skb : sk_buff) (dev : net_device) (type : Z)
    (daddr saddr : option (list byte)) (len : Z) : outcome (Z * sk_buff) :=
  (p <- fc_header_reserve type ;;
   fc_header_addrs dev daddr saddr (fst p) (snd p)) skb.

Definition fc_header_ops : header_ops_tbl :=
  {| create := fc_header; validate := eth_validate_addr |}.

Definition header_ops_at (r : header_ops_ref) : option header_ops_tbl :=
  match r with
  | fc_header_ops_ref => Some fc_header_ops
  | no_header_ops => None
  end.

Definition fc_setup (dev : net_device) : net_device :=
  {| header_ops      := fc_header_ops_ref;
     type            := ARPHRD_IEEE802;
     hard_header_len := FC_HLEN;
     mtu             := 2024;
     addr_len        := FC_ALEN;
     tx_queue_len    := 100;
     flags           := IFF_BROADCAST;
     broadcast       := eth_broadcast_addr (broadcast dev);
     dev_addr        := dev_addr dev |}.

(** The generic allocator [alloc_netdev_mqs] (net/core/dev.c) is taken as
    given: a function of its arguments and of the state of the kernel
    [kstate], that returns the new device, or nothing for [NULL], and the
    state it leaves. *)
Variable kstate : Type.
Variable alloc_netdev_mqs :
  Z -> string -> Z -> (net_device -> net_device) -> Z -> Z ->
  kstate -> option net_device * kstate.

Definition alloc_fcdev_mq (sizeof_priv : Z) (queue_count : Z) :
    kstate -> option net_device * kstate :=
  alloc_netdev_mqs sizeof_priv "fc%d" NET_NAME_ENUM
                   fc_setup queue_count queue_count.

Definition alloc_fcdev (sizeof_priv : Z) :
    kstate -> option net_device * kstate :=
  alloc_fcdev_mq sizeof_priv 1.

(** The allocation of a Fibre Channel device with a single transmit and
    a single receive queue, written out: what the legacy allocator is
    meant to be. *)
Definition alloc_fcdev_single_queue (sizeof_priv : Z) :
    kstate -> option net_device * kstate :=
  alloc_netdev_mqs sizeof_priv "fc%d" NET_NAME_ENUM fc_setup 1 1.

(* ------------------------------------------------------------------- *)
(** *** What a call leaves behind *)

(** The source address a call copies from. *)
Definition fc_source (dev : net_device) (saddr : option (list byte)) :
    list byte :=
  match saddr with
  | Some a => a
  | None => dev_addr dev
  end.

(** The value a call returns once the header is written. *)
Definition fc_retval (type : Z) (daddr : option (list byte)) : Z :=
  match daddr with
  | Some _ => Z.of_nat (fc_hdr_len type)
  | None => (- Z.of_nat (fc_hdr_len type))%Z
  end.

(** The stores of a call, in program order, applied to the window [w] of
    the buffer that [skb_push] reserved (offsets relative to [fch]). *)
Definition snap_stores (type : Z) (w : list byte) : list byte :=
  list_inserts (sizeof_fch_hdr + fcllc_ethertype) (htons type)
    (list_inserts (sizeof_fch_hdr + fcllc_protid)
                  (replicate sizeof_protid x00)
       (list_inserts (sizeof_fch_hdr + fcllc_llc) [UI_CMD]
          (list_inserts (sizeof_fch_hdr + fcllc_dsap) [EXTENDED_SAP]
             (list_inserts (sizeof_fch_hdr + fcllc_ssap) [EXTENDED_SAP]
                           w)))).

Definition fc_image (type : Z) (dev : net_device)
    (daddr saddr : option (list byte)) (w : list byte) : list byte :=
  let w1 := if uses_snap type then snap_stores type w else w in
  let w2 := list_inserts fch_saddr
              (take (addr_len dev) (fc_source dev saddr)) w1 in
  match daddr with
  | Some d => list_inserts fch_daddr (take (addr_len dev) d) w2
  | None => w2
  end.

(** The window of a buffer that [skb_push] reserves for the header of a
    frame of the given type, and the buffer a call ends with. *)
Definition fc_window (skb : sk_buff) (type : Z) : list byte :=
  bytes_at skb (data skb - fc_hdr_len type) (fc_hdr_len type).

Definition fc_result (skb : sk_buff) (dev : net_device) (type : Z)
    (daddr saddr : option (list byte)) : sk_buff :=
  {| head := take (data skb - fc_hdr_len type) (head skb) ++
             fc_image type dev daddr saddr (fc_window skb type) ++
             drop (data skb) (head skb);
     data := data skb - fc_hdr_len type;
     len := len skb + fc_hdr_len type |}.

(** The LLC/SNAP sub-header of the frame in [skb] is populated for the
    protocol type [type]. *)
Definition snap_populated (skb : sk_buff) (type : Z) : Prop :=
  frame_bytes skb (sizeof_fch_hdr + fcllc_dsap) 1 = [EXTENDED_SAP] /\
  frame_bytes skb (sizeof_fch_hdr + fcllc_ssap) 1 = [EXTENDED_SAP] /\
  frame_bytes skb (sizeof_fch_hdr + fcllc_llc) 1 = [UI_CMD] /\
  frame_bytes skb (sizeof_fch_hdr + fcllc_protid) sizeof_protid
    = [x00; x00; x00] /\
  frame_bytes skb (sizeof_fch_hdr + fcllc_ethertype) 2 = htons type.

(** The conditions under which a call stays within defined behaviour: the
    start of the frame lies in the buffer with the headroom for the header
    in front of it, the device's address length fits the address fields of
    the hardware header ([fc_setup] makes it [FC_ALEN]), and the source and
    destination addresses hold at least that many bytes. *)
Definition fc_call_ok (skb : sk_buff) (dev : net_device) (type : Z)
    (daddr saddr : option (list byte)) : Prop :=
  fc_hdr_len type <= data skb /\
  data skb <= length (head skb) /\
  addr_len dev <= FC_ALEN /\
  addr_len dev <= length (fc_source dev saddr) /\
  match daddr with
  | Some d => addr_len dev <= length d
  | None => True
  end.

(** Two buffers are equivalent when they have the same geometry and hold
    the same bytes in front of the tail of the frame: the same headroom
    and the same frame. What lies behind the tail may differ. *)
Definition skb_equiv (s1 s2 : sk_buff) : Prop :=
  data s1 = data s2 /\ len s1 = len s2 /\
  take (data s1 + len s1) (head s1) = take (data s2 + len s2) (head s2).

(** [dev] with another MTU. *)
Definition with_mtu (dev : net_device) (m : Z) : net_device :=
  {| header_ops := header_ops dev; type := type dev;
     hard_header_len := hard_header_len dev; mtu := m;
     addr_len := addr_len dev; tx_queue_len := tx_queue_len dev;
     flags := flags dev; broadcast := broadcast dev;
     dev_addr := dev_addr dev |}.

(* ------------------------------------------------------------------- *)
(** *** The frame on the wire *)

(** The LLC/SNAP sub-header for a protocol type, and the whole header for
    a destination and a source address of the length of the fields. *)
Definition snap_header (type : Z) : list byte :=
  [EXTENDED_SAP; EXTENDED_SAP; UI_CMD; x00; x00; x00] ++ htons type.

Definition fc_wire_header (type : Z) (d s : list byte) : list byte :=
  take FC_ALEN d ++ take FC_ALEN s ++
  (if uses_snap type then snap_header type else []).

(** The frame of a buffer lies within the buffer. *)
Definition skb_wf (skb : sk_buff) : Prop :=
  data skb + len skb <= length (head skb).

(* ===================================================================== *)
(** ** Properties of the byte and list operations *)
(* ===================================================================== *)

Lemma Z_of_byte_of_Z z : Z_of_byte (byte_of_Z z) = (z mod 256)%Z.
Proof.
  unfold Z_of_byte, byte_of_Z.
  assert (Hr : (0 <= z mod 256 < 256)%Z) by (apply Z.mod_pos_bound; lia).
  destruct (Byte.of_N (Z.to_N (z mod 256))) as [b|] eqn:Hb; cbn.
  - apply Byte.to_of_N in Hb. rewrite Hb. lia.
  - apply Byte.of_N_None_iff in Hb. lia.
Qed.

(** Decoding what [htons] stores gives the value back, up to the width of
    the field. *)
Lemma be_decode_htons x : be_decode (htons x) = (x mod 65536)%Z.
Proof.
  unfold be_decode, htons; cbn.
  rewrite !Z_of_byte_of_Z, Z.shiftr_div_pow2 by lia.
  change (2 ^ 8)%Z with 256%Z.
  replace 65536%Z with (256 * 256)%Z by lia.
  rewrite Z.rem_mul_r by lia. lia.
Qed.

Lemma be_decode_htons_u16 x :
  (0 <= x < 65536)%Z -> be_decode (htons x) = x.
Proof. intros Hx. rewrite be_decode_htons. by apply Z.mod_small. Qed.

Section ListWrites.
Context {A : Type}.
Implicit Types (l bs w pre post : list A).

(** Reading back the bytes just written. *)
Lemma take_drop_inserts_same l bs p n :
  n = length bs -> p + n <= length l ->
  take n (drop p (list_inserts p bs l)) = bs.
Proof.
  intros -> Hle. apply list_eq. intros i.
  rewrite lookup_take, lookup_drop. case_decide as Hi.
  - rewrite list_lookup_inserts by lia. f_equal. lia.
  - symmetry. apply lookup_ge_None. lia.
Qed.

(** A write outside of the bytes read does not show. *)
Lemma take_drop_inserts_disj l bs p q n :
  p + n <= q \/ q + length bs <= p ->
  take n (drop p (list_inserts q bs l)) = take n (drop p l).
Proof.
  intros Hd. apply list_eq. intros i.
  rewrite !lookup_take, !lookup_drop. case_decide as Hi; [|done].
  destruct Hd.
  - apply list_lookup_inserts_lt. lia.
  - apply list_lookup_inserts_ge. lia.
Qed.

Lemma inserts_app_keep w post k bs :
  k + length bs <= length w ->
  list_inserts k bs (w ++ post) = list_inserts k bs w ++ post.
Proof.
  intros Hle. apply list_eq. intros i.
  destruct (decide (i < length w)) as [Hi|Hi].
  - rewrite lookup_app_l by (rewrite length_inserts; lia).
    destruct (decide (k <= i < k + length bs)) as [Hin|Hout].
    + rewrite !list_lookup_inserts; rewrite ?length_app; auto; lia.
    + destruct (decide (i < k)).
      * rewrite !list_lookup_inserts_lt by lia. by rewrite lookup_app_l.
      * rewrite !list_lookup_inserts_ge by lia. by rewrite lookup_app_l.
  - rewrite lookup_app_r by (rewrite length_inserts; lia).
    rewrite list_lookup_inserts_ge by lia.
    rewrite lookup_app_r by lia. by rewrite length_inserts.
Qed.

(** A write that falls within a window of the list changes the window
    only. *)
Lemma inserts_app_window pre w post k bs :
  k + length bs <= length w ->
  list_inserts (length pre + k) bs (pre ++ w ++ post)
  = pre ++ list_inserts k bs w ++ post.
Proof.
  intros Hle. by rewrite list_inserts_app_r, inserts_app_keep.
Qed.
End ListWrites.

(* ------------------------------------------------------------------- *)
(** *** Running the memory operations on a window of the buffer *)

Ltac layout :=
  unfold sizeof_fch_hdr, sizeof_fcllc, sizeof_protid, fch_saddr, fch_daddr,
    fcllc_dsap, fcllc_ssap, fcllc_llc, fcllc_protid, fcllc_ethertype,
    FC_ALEN, htons in *.

Ltac in_window :=
  rewrite ?length_inserts, ?length_take, ?length_replicate; cbn; lia.

Lemma bind_assoc {A B C} (m : skbM A) (f : A -> skbM B) (g : B -> skbM C)
    skb :
  bind (bind m f) g skb = bind m (fun x => bind (f x) g) skb.
Proof. unfold bind. by destruct (m skb) as [[a skb']|e]. Qed.

Lemma bind_ret {A B} (a : A) (f : A -> skbM B) skb :
  bind (ret a) f skb = f a skb.
Proof. done. Qed.

Lemma bind_store_window {B} pre w post d l k bs (f : unit -> skbM B) :
  k + length bs <= length w ->
  bind (store_bytes (length pre + k) bs) f
       {| head := pre ++ w ++ post; data := d; len := l |}
  = f tt {| head := pre ++ list_inserts k bs w ++ post;
            data := d; len := l |}.
Proof.
  intros Hle. unfold bind, store_bytes; cbn [head data len].
  rewrite inserts_app_window by done.
  destruct (Nat.leb_spec (length pre + k + length bs)
                         (length (pre ++ w ++ post))) as [_|Hb]; [done|].
  rewrite !length_app in Hb. lia.
Qed.

Lemma bind_memcpy_window {B} pre w post d l k sz src n (f : unit -> skbM B) :
  n <= sz -> n <= length src -> k + n <= length w ->
  bind (memcpy {| addr := length pre + k; extent := sz |} src n) f
       {| head := pre ++ w ++ post; data := d; len := l |}
  = f tt {| head := pre ++ list_inserts k (take n src) w ++ post;
            data := d; len := l |}.
Proof.
  intros Hsz Hs Hle. unfold memcpy; cbn [addr extent].
  destruct (Nat.leb_spec n sz); [|lia].
  destruct (Nat.leb_spec n (length src)); [|lia]. cbn [andb].
  apply bind_store_window. rewrite length_take. lia.
Qed.

Lemma bind_memset_window {B} pre w post d l k sz c n (f : unit -> skbM B) :
  n <= sz -> k + n <= length w ->
  bind (memset {| addr := length pre + k; extent := sz |} c n) f
       {| head := pre ++ w ++ post; data := d; len := l |}
  = f tt {| head := pre ++ list_inserts k (replicate n c) w ++ post;
            data := d; len := l |}.
Proof.
  intros Hsz Hle. unfold memset; cbn [addr extent].
  destruct (Nat.leb_spec n sz); [|lia].
  apply bind_store_window. rewrite length_replicate. lia.
Qed.

(** The part of [fc_header] after the conditional: the two address
    copies and the return. *)
Lemma fc_header_addrs_window pre w post d l dev daddr saddr (h : nat) :
  sizeof_fch_hdr <= length w ->
  addr_len dev <= FC_ALEN ->
  addr_len dev <= length (fc_source dev saddr) ->
  match daddr with Some d => addr_len dev <= length d | None => True end ->
  fc_header_addrs dev daddr saddr (length pre) h
    {| head := pre ++ w ++ post; data := d; len := l |}
  = Ok (match daddr with
        | Some _ => Z.of_nat h
        | None => (- Z.of_nat h)%Z
        end,
        {| head := pre ++
                   match daddr with
                   | Some a =>
                       list_inserts fch_daddr (take (addr_len dev) a)
                         (list_inserts fch_saddr
                            (take (addr_len dev) (fc_source dev saddr)) w)
                   | None =>
                       list_inserts fch_saddr
                         (take (addr_len dev) (fc_source dev saddr)) w
                   end ++ post;
           data := d; len := l |}).
Proof.
  intros Hw Hn Hs Hd. unfold fc_header_addrs.
  replace (match saddr with
           | Some a => memcpy (field (length pre) fch_saddr FC_ALEN) a
                              (addr_len dev)
           | None => memcpy (field (length pre) fch_saddr FC_ALEN)
                            (dev_addr dev) (addr_len dev)
           end)
    with (memcpy (field (length pre) fch_saddr FC_ALEN) (fc_source dev saddr)
                 (addr_len dev))
    by (by destruct saddr).
  unfold field.
  rewrite bind_memcpy_window by (done || (layout; lia)).
  destruct daddr as [a|]; [|done].
  by rewrite bind_memcpy_window by (done || (layout; in_window)).
Qed.

Lemma fc_header_run_window pre w post l dev type daddr saddr len0 :
  length w = fc_hdr_len type ->
  addr_len dev <= FC_ALEN ->
  addr_len dev <= length (fc_source dev saddr) ->
  match daddr with Some d => addr_len dev <= length d | None => True end ->
  fc_header {| head := pre ++ w ++ post;
               data := length pre + length w; len := l |}
            dev type daddr saddr len0
  = Ok (fc_retval type daddr,
        {| head := pre ++ fc_image type dev daddr saddr w ++ post;
           data := length pre; len := l + fc_hdr_len type |}).
Proof.
  intros Hw Hn Hs Hd.
  unfold fc_header, fc_header_reserve, fc_image, fc_retval, fc_hdr_len,
    uses_snap in *.
  assert (Hpush : forall B (f : nat -> skbM B),
    bind (skb_push (length w)) f
      {| head := pre ++ w ++ post; data := length pre + length w; len := l |}
    = f (length pre)
        {| head := pre ++ w ++ post; data := length pre;
           len := l + length w |}).
  { intros B f. unfold bind, skb_push; cbn [head data len].
    destruct (Nat.ltb_spec (length pre + length w) (length w)); [lia|].
    by replace (length pre + length w - length w) with (length pre) by lia. }
  destruct ((type =? ETH_P_IP)%Z || (type =? ETH_P_ARP)%Z);
    rewrite <- Hw.
  - rewrite bind_assoc, Hpush. unfold store_u8, field.
    rewrite <- !(Nat.add_assoc (length pre)).
    do 3 (rewrite bind_assoc, bind_store_window by (layout; in_window)).
    rewrite bind_assoc, bind_memset_window by (layout; in_window).
    rewrite bind_assoc, bind_store_window by (layout; in_window).
    rewrite bind_ret. cbn [fst snd].
    rewrite fc_header_addrs_window; auto.
    layout. in_window.
  - rewrite bind_assoc, Hpush, bind_ret. cbn [fst snd].
    rewrite fc_header_addrs_window; auto. lia.
Qed.

(** A buffer with enough headroom splits into what lies in front of the
    window, the window, and the frame. *)
Lemma head_split skb type :
  fc_hdr_len type <= data skb -> data skb <= length (head skb) ->
  head skb = take (data skb - fc_hdr_len type) (head skb) ++
             fc_window skb type ++ drop (data skb) (head skb).
Proof.
  intros Hh Hb. unfold fc_window, bytes_at.
  set (h := fc_hdr_len type) in *.
  rewrite <- (take_drop (data skb - h) (head skb)) at 1. f_equal.
  rewrite <- (take_drop h (drop (data skb - h) (head skb))) at 1.
  f_equal. rewrite drop_drop. f_equal. lia.
Qed.

Lemma length_fc_window skb type :
  fc_hdr_len type <= data skb -> data skb <= length (head skb) ->
  length (fc_window skb type) = fc_hdr_len type.
Proof.
  intros Hh Hb. unfold fc_window, bytes_at.
  rewrite length_take, length_drop. lia.
Qed.

(** The same for a buffer in general: the window is the last
    [fc_hdr_len type] bytes of the headroom. *)
Lemma fc_header_run skb dev type daddr saddr len0 :
  fc_call_ok skb dev type daddr saddr ->
  fc_header skb dev type daddr saddr len0
  = Ok (fc_retval type daddr, fc_result skb dev type daddr saddr).
Proof.
  intros (Hh & Hb & Hn & Hs & Hd). unfold fc_result.
  pose proof (head_split skb type Hh Hb) as Hsplit.
  pose proof (length_fc_window skb type Hh Hb) as Hw.
  set (pre := take (data skb - fc_hdr_len type) (head skb)) in *.
  set (w := fc_window skb type) in *.
  set (post := drop (data skb) (head skb)) in *.
  assert (Hpre : length pre = data skb - fc_hdr_len type)
    by (unfold pre; rewrite length_take; lia).
  transitivity
    (fc_header {| head := pre ++ w ++ post;
                  data := length pre + length w; len := len skb |}
               dev type daddr saddr len0).
  - f_equal. destruct skb as [hd d l]; cbn in *. f_equal; [done|lia].
  - rewrite fc_header_run_window by done. by rewrite Hpre.
Qed.

(** The two bounds of [fc_call_ok] that are not about the addresses
    passed are needed for a call to return: without the headroom the kernel
    panics in [skb_push], and an address length beyond [FC_ALEN] takes the
    copy of the source address out of the field it is made to. *)
Lemma faults_bind {A B} (m : skbM A) (k : A -> skbM B) skb :
  (forall a s, faults (k a s)) -> faults (bind m k skb).
Proof.
  intros Hk. unfold bind. destruct (m skb) as [[a s]|f]; [apply Hk|].
  by exists f.
Qed.

Lemma fc_header_short_headroom skb dev type daddr saddr len0 :
  data skb < fc_hdr_len type ->
  fc_header skb dev type daddr saddr len0 = Fault skb_under_panic.
Proof.
  intros Hh. unfold fc_header, fc_header_reserve, fc_hdr_len, uses_snap in *.
  destruct ((type =? ETH_P_IP)%Z || (type =? ETH_P_ARP)%Z);
    rewrite bind_assoc; unfold bind at 1, skb_push;
    by destruct (Nat.ltb_spec (data skb) (sizeof_fch_hdr + sizeof_fcllc)),
                (Nat.ltb_spec (data skb) sizeof_fch_hdr); try lia.
Qed.

Lemma fc_header_long_addr skb dev type daddr saddr len0 :
  FC_ALEN < addr_len dev ->
  faults (fc_header skb dev type daddr saddr len0).
Proof.
  intros Hn. unfold fc_header. apply faults_bind. intros [fch hdr_len] s.
  unfold fc_header_addrs; cbn [fst snd].
  assert (Hcopy : forall src,
    memcpy (field fch fch_saddr FC_ALEN) src (addr_len dev)
    = fail bad_access).
  { intros src. unfold memcpy, field; cbn [extent].
    by destruct (Nat.leb_spec (addr_len dev) FC_ALEN); [lia|]. }
  destruct saddr; rewrite Hcopy; by exists bad_access.
Qed.

(* ------------------------------------------------------------------- *)
(** *** The fields of the header a call leaves *)

Ltac read_field :=
  repeat (rewrite take_drop_inserts_disj
            by (rewrite ?length_take; cbn; lia));
  try (rewrite take_drop_inserts_same
         by (rewrite ?length_inserts, ?length_take; cbn; lia)).

Lemma frame_bytes_window pre img post d l off n :
  d = length pre -> off + n <= length img ->
  frame_bytes {| head := pre ++ img ++ post; data := d; len := l |} off n
  = take n (drop off img).
Proof.
  intros -> Hle. unfold frame_bytes, bytes_at; cbn [head data].
  rewrite <- drop_drop, drop_app_length.
  rewrite drop_app_le, take_app_le; [done| |lia].
  rewrite length_drop. lia.
Qed.

Lemma length_fc_image type dev daddr saddr w :
  length (fc_image type dev daddr saddr w) = length w.
Proof.
  unfold fc_image, snap_stores.
  destruct daddr, (uses_snap type); by rewrite !length_inserts.
Qed.

Lemma fc_image_saddr type dev daddr saddr w :
  length w = fc_hdr_len type ->
  addr_len dev <= FC_ALEN ->
  addr_len dev <= length (fc_source dev saddr) ->
  take (addr_len dev) (drop fch_saddr (fc_image type dev daddr saddr w))
  = take (addr_len dev) (fc_source dev saddr).
Proof.
  intros Hw Hn Hs. unfold fc_image, snap_stores, fc_hdr_len in *.
  destruct daddr, (uses_snap type); layout; read_field; done.
Qed.

Lemma fc_image_daddr_unwritten type dev saddr w :
  take FC_ALEN (drop fch_daddr (fc_image type dev None saddr w))
  = take FC_ALEN w.
Proof.
  unfold fc_image, snap_stores.
  destruct (uses_snap type); layout; read_field; done.
Qed.

Lemma fc_image_daddr type dev d saddr w :
  length w = fc_hdr_len type ->
  addr_len dev <= FC_ALEN ->
  addr_len dev <= length d ->
  take (addr_len dev) (drop fch_daddr (fc_image type dev (Some d) saddr w))
  = take (addr_len dev) d.
Proof.
  intros Hw Hn Hd. unfold fc_image, snap_stores, fc_hdr_len in *.
  destruct (uses_snap type); layout; read_field; done.
Qed.

Lemma fc_image_snap type dev daddr saddr w :
  uses_snap type = true ->
  length w = fc_hdr_len type ->
  addr_len dev <= FC_ALEN ->
  let img := fc_image type dev daddr saddr w in
  take 1 (drop (sizeof_fch_hdr + fcllc_dsap) img) = [EXTENDED_SAP] /\
  take 1 (drop (sizeof_fch_hdr + fcllc_ssap) img) = [EXTENDED_SAP] /\
  take 1 (drop (sizeof_fch_hdr + fcllc_llc) img) = [UI_CMD] /\
  take sizeof_protid (drop (sizeof_fch_hdr + fcllc_protid) img)
    = [x00; x00; x00] /\
  take 2 (drop (sizeof_fch_hdr + fcllc_ethertype) img) = htons type.
Proof.
  intros Hsnap Hw Hn. unfold fc_image, snap_stores, fc_hdr_len in *.
  rewrite Hsnap in *. cbv zeta.
  destruct daddr; layout; repeat split; read_field; done.
Qed.

(** Reading the frame of the buffer a call ends with is reading the
    image of the window. *)
Lemma frame_bytes_result skb dev type daddr saddr off n :
  fc_hdr_len type <= data skb -> data skb <= length (head skb) ->
  off + n <= fc_hdr_len type ->
  frame_bytes (fc_result skb dev type daddr saddr) off n
  = take n (drop off (fc_image type dev daddr saddr (fc_window skb type))).
Proof.
  intros Hh Hb Hle. unfold fc_result. apply frame_bytes_window.
  - rewrite length_take. lia.
  - rewrite length_fc_image, length_fc_window by done. lia.
Qed.

Lemma snap_populated_result skb dev type daddr saddr :
  uses_snap type = true ->
  fc_call_ok skb dev type daddr saddr ->
  snap_populated (fc_result skb dev type daddr saddr) type.
Proof.
  intros Hsnap (Hh & Hb & Hn & Hs & Hd).
  pose proof (length_fc_window skb type Hh Hb) as Hw.
  pose proof (fc_image_snap type dev daddr saddr _ Hsnap Hw Hn) as Himg.
  unfold snap_populated.
  rewrite !frame_bytes_result
    by (done || (unfold fc_hdr_len; rewrite Hsnap; layout; cbn; lia)).
  exact Himg.
Qed.

(** Outside of the window the buffer is as it was. *)
Lemma fc_result_frame skb dev type daddr saddr i :
  fc_hdr_len type <= data skb -> data skb <= length (head skb) ->
  i < data skb - fc_hdr_len type \/ data skb <= i ->
  head (fc_result skb dev type daddr saddr) !! i = head skb !! i.
Proof.
  intros Hh Hb Hi.
  pose proof (length_fc_window skb type Hh Hb) as Hw.
  pose proof (head_split skb type Hh Hb) as Hsplit.
  apply (f_equal (fun l => l !! i)) in Hsplit. rewrite Hsplit.
  unfold fc_result; cbn [head].
  set (pre := take (data skb - fc_hdr_len type) (head skb)).
  assert (Hpre : length pre = data skb - fc_hdr_len type)
    by (unfold pre; rewrite length_take; lia).
  destruct Hi as [Hi|Hi].
  - by rewrite !lookup_app_l by lia.
  - rewrite !(lookup_app_r pre) by lia.
    rewrite !lookup_app_r by (rewrite ?length_fc_image; lia).
    by rewrite length_fc_image.
Qed.

Lemma length_head_fc_result skb dev type daddr saddr :
  fc_hdr_len type <= data skb -> data skb <= length (head skb) ->
  length (head (fc_result skb dev type daddr saddr)) = length (head skb).
Proof.
  intros Hh Hb. pose proof (head_split skb type Hh Hb) as Hsplit.
  apply (f_equal length) in Hsplit. rewrite Hsplit.
  unfold fc_result; cbn [head].
  rewrite !length_app, length_fc_image.
  by rewrite length_fc_window.
Qed.

Lemma uses_snap_ip_arp type :
  type = ETH_P_IP \/ type = ETH_P_ARP -> uses_snap type = true.
Proof.
  unfold uses_snap. intros [->| ->]; rewrite Z.eqb_refl; [done|].
  apply orb_true_r.
Qed.

Lemma uses_snap_other type :
  type <> ETH_P_IP -> type <> ETH_P_ARP -> uses_snap type = false.
Proof.
  unfold uses_snap. intros H1 H2.
  apply Z.eqb_neq in H1, H2. by rewrite H1, H2.
Qed.

(** The window is part of the headroom: buffers with the same headroom
    have the same window. *)
Lemma fc_window_headroom s1 s2 type :
  fc_hdr_len type <= data s1 -> data s1 = data s2 ->
  take (data s1) (head s1) = take (data s2) (head s2) ->
  fc_window s1 type = fc_window s2 type.
Proof.
  intros Hh Hd Heq. unfold fc_window, bytes_at.
  rewrite !take_drop_commute, <- Hd.
  replace (data s1 - fc_hdr_len type + fc_hdr_len type) with (data s1)
    by lia.
  rewrite Heq. by rewrite Hd.
Qed.

Lemma skb_equiv_headroom s1 s2 :
  skb_equiv s1 s2 -> take (data s1) (head s1) = take (data s2) (head s2).
Proof.
  intros (Hd & Hl & Heq).
  apply (f_equal (take (data s1))) in Heq.
  rewrite !take_take in Heq. rewrite <- Hd, <- Hl in Heq. rewrite <- Hd.
  by replace (data s1 `min` (data s1 + len s1)) with (data s1) in Heq
    by lia.
Qed.

Lemma skb_equiv_frame s1 s2 :
  skb_equiv s1 s2 ->
  take (len s1) (drop (data s1) (head s1))
  = take (len s2) (drop (data s2) (head s2)).
Proof.
  intros (Hd & Hl & Heq). rewrite !take_drop_commute, Heq. by rewrite Hd.
Qed.

(** The part of the buffer a call ends with that lies in front of the
    tail of the frame. *)
Lemma fc_result_upto_tail skb dev type daddr saddr :
  fc_hdr_len type <= data skb -> data skb <= length (head skb) ->
  take (data skb + len skb) (head (fc_result skb dev type daddr saddr))
  = take (data skb - fc_hdr_len type) (take (data skb) (head skb)) ++
    fc_image type dev daddr saddr (fc_window skb type) ++
    take (len skb) (drop (data skb) (head skb)).
Proof.
  intros Hh Hb. unfold fc_result; cbn [head].
  pose proof (length_fc_window skb type Hh Hb) as Hw.
  rewrite take_take.
  replace ((data skb - fc_hdr_len type) `min` data skb)
    with (data skb - fc_hdr_len type) by lia.
  set (pre := take (data skb - fc_hdr_len type) (head skb)).
  assert (Hpre : length pre = data skb - fc_hdr_len type)
    by (unfold pre; rewrite length_take; lia).
  rewrite take_app_ge by lia. f_equal.
  rewrite take_app_ge by (rewrite length_fc_image; lia). f_equal.
  rewrite length_fc_image. f_equal. lia.
Qed.

Lemma fc_header_len_unused skb dev type daddr saddr len0 len1 :
  fc_header skb dev type daddr saddr len0
  = fc_header skb dev type daddr saddr len1.
Proof. done. Qed.

Lemma fc_header_mtu_unused skb dev type daddr saddr len0 m :
  fc_header skb (with_mtu dev m) type daddr saddr len0
  = fc_header skb dev type daddr saddr len0.
Proof. done. Qed.

(* =================================================================== *)
(** ** The header-synthesis contract *)
(* =================================================================== *)

(** C1. For a protocol type that is IP or ARP and a destination address
    provided, [fc_header] returns the size of the hardware header plus the
    size of the LLC/SNAP sub-header, and the sub-header of the frame holds
    [EXTENDED_SAP] in both service-access-point fields, [UI_CMD] in the
    control field, three zero bytes of organization identifier, and the
    protocol type in big-endian order in its 2-byte type field. *)
Theorem fc_header_snap_resolved skb dev type daddr saddr len0 :
  (0 <= type < 65536)%Z ->
  type = ETH_P_IP \/ type = ETH_P_ARP ->
  fc_call_ok skb dev type (Some daddr) saddr ->
  exists skb',
    fc_header skb dev type (Some daddr) saddr len0
      = Ok (Z.of_nat (sizeof_fch_hdr + sizeof_fcllc), skb') /\
    frame_bytes skb' (sizeof_fch_hdr + fcllc_dsap) 1 = [EXTENDED_SAP] /\
    frame_bytes skb' (sizeof_fch_hdr + fcllc_ssap) 1 = [EXTENDED_SAP] /\
    frame_bytes skb' (sizeof_fch_hdr + fcllc_llc) 1 = [UI_CMD] /\
    frame_bytes skb' (sizeof_fch_hdr + fcllc_protid) sizeof_protid
      = [x00; x00; x00] /\
    frame_bytes skb' (sizeof_fch_hdr + fcllc_ethertype) 2 = htons type /\
    be_decode (frame_bytes skb' (sizeof_fch_hdr + fcllc_ethertype) 2)
      = type.
Proof.
  intros Hu16 Htype Hok.
  apply uses_snap_ip_arp in Htype.
  exists (fc_result skb dev type (Some daddr) saddr).
  rewrite fc_header_run by done.
  destruct (snap_populated_result _ _ _ _ _ Htype Hok)
    as (Hd & Hs & Hl & Hp & He).
  unfold fc_retval, fc_hdr_len. rewrite Htype.
  split_and!; try done.
  rewrite He. by apply be_decode_htons_u16.
Qed.

(** C2. For a protocol type that is neither IP nor ARP and a destination
    address provided, [fc_header] returns the size of the hardware header
    alone, the frame grows by that many bytes, and no byte of the buffer
    outside of those is written: there is no LLC/SNAP sub-header. *)
Theorem fc_header_plain_resolved skb dev type daddr saddr len0 :
  type <> ETH_P_IP -> type <> ETH_P_ARP ->
  fc_call_ok skb dev type (Some daddr) saddr ->
  exists skb',
    fc_header skb dev type (Some daddr) saddr len0
      = Ok (Z.of_nat sizeof_fch_hdr, skb') /\
    data skb' + sizeof_fch_hdr = data skb /\
    len skb' = len skb + sizeof_fch_hdr /\
    length (head skb') = length (head skb) /\
    forall i, i < data skb' \/ data skb' + sizeof_fch_hdr <= i ->
              head skb' !! i = head skb !! i.
Proof.
  intros Hip Harp Hok.
  pose proof (uses_snap_other type Hip Harp) as Hsnap.
  exists (fc_result skb dev type (Some daddr) saddr).
  rewrite fc_header_run by done.
  destruct Hok as (Hh & Hb & _).
  assert (Hlen : fc_hdr_len type = sizeof_fch_hdr)
    by (unfold fc_hdr_len; by rewrite Hsnap).
  unfold fc_retval. rewrite Hlen in *.
  split_and!.
  - done.
  - cbn [fc_result data]. rewrite Hlen. lia.
  - cbn [fc_result len]. by rewrite Hlen.
  - by apply length_head_fc_result; rewrite ?Hlen.
  - intros i Hi. apply fc_result_frame; rewrite ?Hlen; [done..|].
    cbn [fc_result data] in Hi. rewrite Hlen in Hi. lia.
Qed.

(** C3. With no destination address, [fc_header] still reserves the
    header, writes the source address and, for IP and ARP, the SNAP
    sub-header, leaves the destination field as it was, and returns the
    negative of the header length; its magnitude is what the same call
    returns when a destination is given. *)
Theorem fc_header_unresolved skb dev type saddr len0 :
  fc_call_ok skb dev type None saddr ->
  exists skb',
    fc_header skb dev type None saddr len0
      = Ok ((- Z.of_nat (fc_hdr_len type))%Z, skb') /\
    data skb' + fc_hdr_len type = data skb /\
    len skb' = len skb + fc_hdr_len type /\
    frame_bytes skb' fch_saddr (addr_len dev)
      = take (addr_len dev) (fc_source dev saddr) /\
    (uses_snap type = true -> snap_populated skb' type) /\
    frame_bytes skb' fch_daddr FC_ALEN = bytes_at skb (data skb') FC_ALEN /\
    forall daddr, addr_len dev <= length daddr ->
      exists skb'',
        fc_header skb dev type (Some daddr) saddr len0
          = Ok (Z.abs (- Z.of_nat (fc_hdr_len type)), skb'').
Proof.
  intros Hok. pose proof Hok as (Hh & Hb & Hn & Hs & _).
  pose proof (length_fc_window skb type Hh Hb) as Hw.
  assert (H12 : sizeof_fch_hdr <= fc_hdr_len type)
    by (unfold fc_hdr_len; destruct (uses_snap type); lia).
  exists (fc_result skb dev type None saddr).
  rewrite fc_header_run by done.
  split_and!.
  - done.
  - cbn [fc_result data]. lia.
  - done.
  - rewrite frame_bytes_result by (done || (layout; lia)).
    by apply fc_image_saddr.
  - intros Hsnap. by apply snap_populated_result.
  - rewrite frame_bytes_result by (done || (layout; lia)).
    rewrite fc_image_daddr_unwritten. cbn [fc_result data].
    unfold fc_window, bytes_at. rewrite take_take. f_equal.
    layout. lia.
  - intros daddr Hd.
    exists (fc_result skb dev type (Some daddr) saddr).
    rewrite fc_header_run by (by repeat split).
    unfold fc_retval. f_equal. f_equal. lia.
Qed.

(** C4. The source-address field of the header holds, over the device's
    hardware-address length, the source address passed when there is one,
    and the device's own hardware address when there is none. *)
Theorem fc_header_source skb dev type daddr saddr len0 :
  fc_call_ok skb dev type daddr saddr ->
  exists r skb',
    fc_header skb dev type daddr saddr len0 = Ok (r, skb') /\
    frame_bytes skb' fch_saddr (addr_len dev)
    = match saddr with
      | Some a => take (addr_len dev) a
      | None => take (addr_len dev) (dev_addr dev)
      end.
Proof.
  intros Hok. pose proof Hok as (Hh & Hb & Hn & Hs & _).
  pose proof (length_fc_window skb type Hh Hb) as Hw.
  assert (H12 : sizeof_fch_hdr <= fc_hdr_len type)
    by (unfold fc_hdr_len; destruct (uses_snap type); lia).
  exists (fc_retval type daddr), (fc_result skb dev type daddr saddr).
  split; [by apply fc_header_run|].
  rewrite frame_bytes_result by (done || (layout; lia)).
  rewrite fc_image_saddr by done. by destruct saddr.
Qed.

(** C9. With no destination address the destination field is not
    cleared: it holds the bytes that were in that part of the headroom
    before the call. *)
Theorem fc_header_unresolved_daddr_stale skb dev type saddr len0 :
  fc_call_ok skb dev type None saddr ->
  exists r skb',
    fc_header skb dev type None saddr len0 = Ok (r, skb') /\
    data skb' = data skb - fc_hdr_len type /\
    forall i, i < FC_ALEN ->
      head skb' !! (data skb' + fch_daddr + i)
      = head skb !! (data skb' + fch_daddr + i).
Proof.
  intros Hok. pose proof Hok as (Hh & Hb & Hn & Hs & _).
  pose proof (length_fc_window skb type Hh Hb) as Hw.
  assert (H12 : sizeof_fch_hdr <= fc_hdr_len type)
    by (unfold fc_hdr_len; destruct (uses_snap type); lia).
  exists (fc_retval type None), (fc_result skb dev type None saddr).
  split; [by apply fc_header_run|]. split; [done|].
  intros i Hi.
  assert (Hf : frame_bytes (fc_result skb dev type None saddr)
                 fch_daddr FC_ALEN
               = bytes_at skb (data skb - fc_hdr_len type) FC_ALEN).
  { rewrite frame_bytes_result by (done || (layout; lia)).
    rewrite fc_image_daddr_unwritten.
    unfold fc_window, bytes_at. rewrite take_take. f_equal.
    layout. lia. }
  apply (f_equal (fun l => l !! i)) in Hf.
  unfold frame_bytes, bytes_at in Hf.
  rewrite !lookup_take_lt, !lookup_drop in Hf by done.
  cbn [fc_result data] in *. layout.
  by replace (data skb - fc_hdr_len type + 0 + i)
    with (data skb - fc_hdr_len type + i) in * by lia.
Qed.

(** C6. A call writes the reserved header region at the front of the
    frame and nothing else; the bytes of the payload are neither changed
    nor read, as the header and the value returned are the same whatever
    the payload is; and the payload length passed and the MTU of the
    device have no part in the result. *)
Theorem fc_header_frame_effect skb dev type daddr saddr len0 :
  fc_call_ok skb dev type daddr saddr ->
  exists r skb',
    fc_header skb dev type daddr saddr len0 = Ok (r, skb') /\
    data skb' + fc_hdr_len type = data skb /\
    length (head skb') = length (head skb) /\
    (forall i, i < data skb' \/ data skb <= i ->
               head skb' !! i = head skb !! i) /\
    (forall skb2,
       data skb2 = data skb -> data skb2 <= length (head skb2) ->
       take (data skb) (head skb2) = take (data skb) (head skb) ->
       exists skb2',
         fc_header skb2 dev type daddr saddr len0 = Ok (r, skb2') /\
         frame_bytes skb2' 0 (fc_hdr_len type)
         = frame_bytes skb' 0 (fc_hdr_len type)) /\
    (forall len1, fc_header skb dev type daddr saddr len1 = Ok (r, skb')) /\
    (forall m,
       fc_header skb (with_mtu dev m) type daddr saddr len0 = Ok (r, skb')).
Proof.
  intros Hok. pose proof Hok as (Hh & Hb & Hn & Hs & Hd).
  exists (fc_retval type daddr), (fc_result skb dev type daddr saddr).
  split_and!.
  - by apply fc_header_run.
  - cbn [fc_result data]. lia.
  - by apply length_head_fc_result.
  - intros i Hi. by apply fc_result_frame.
  - intros skb2 Hd2 Hb2 Hroom.
    exists (fc_result skb2 dev type daddr saddr). split.
    + apply fc_header_run. unfold fc_call_ok.
      rewrite Hd2 in *. by split_and!.
    + rewrite !frame_bytes_result by (done || lia).
      f_equal. f_equal. f_equal.
      apply fc_window_headroom; [lia|done|]. by rewrite Hd2.
  - intros len1. by apply fc_header_run.
  - intros m. rewrite fc_header_mtu_unused. by apply fc_header_run.
Qed.

(** C8. [fc_header] is deterministic: called with the same protocol type,
    addresses, payload length and device on two equivalent buffers, it
    returns the same value and leaves byte-identical headers, and the
    buffers are equivalent afterwards. *)
Theorem fc_header_deterministic s1 s2 dev type daddr saddr len0 :
  skb_equiv s1 s2 ->
  fc_call_ok s1 dev type daddr saddr ->
  fc_call_ok s2 dev type daddr saddr ->
  exists r s1' s2',
    fc_header s1 dev type daddr saddr len0 = Ok (r, s1') /\
    fc_header s2 dev type daddr saddr len0 = Ok (r, s2') /\
    frame_bytes s1' 0 (fc_hdr_len type)
    = frame_bytes s2' 0 (fc_hdr_len type) /\
    skb_equiv s1' s2'.
Proof.
  intros Heq Hok1 Hok2.
  pose proof Hok1 as (Hh1 & Hb1 & _). pose proof Hok2 as (Hh2 & Hb2 & _).
  pose proof (skb_equiv_headroom _ _ Heq) as Hroom.
  pose proof (skb_equiv_frame _ _ Heq) as Hframe.
  pose proof Heq as (Hd & Hl & _).
  pose proof (fc_window_headroom s1 s2 type Hh1 Hd Hroom) as Hwin.
  exists (fc_retval type daddr), (fc_result s1 dev type daddr saddr),
    (fc_result s2 dev type daddr saddr).
  split_and!.
  - by apply fc_header_run.
  - by apply fc_header_run.
  - rewrite !frame_bytes_result by (done || lia). by rewrite Hwin.
  - unfold skb_equiv. cbn [fc_result data len]. split_and!.
    + by rewrite Hd.
    + by rewrite Hl.
    + replace (data s1 - fc_hdr_len type + (len s1 + fc_hdr_len type))
        with (data s1 + len s1) by lia.
      replace (data s2 - fc_hdr_len type + (len s2 + fc_hdr_len type))
        with (data s2 + len s2) by lia.
      rewrite !fc_result_upto_tail by done.
      by rewrite Hroom, Hframe, Hwin, Hd.
Qed.

(* =================================================================== *)
(** ** Address validation, device set-up and allocation *)
(* =================================================================== *)

Lemma is_zero_addr_Forall addr :
  is_zero_addr addr = true <-> Forall (eq x00) addr.
Proof.
  unfold is_zero_addr. rewrite forallb_forall, Forall_forall.
  split; intros H b Hb.
  - apply Byte.byte_dec_bl, H. by apply list_elem_of_In.
  - apply Byte.byte_dec_lb, H. by apply list_elem_of_In.
Qed.

Lemma eth_validate_addr_invalid addr :
  eth_validate_addr addr = InvalidAddress <->
  length addr <> ETH_ALEN \/ Forall (eq x00) addr.
Proof.
  unfold eth_validate_addr. rewrite <- is_zero_addr_Forall.
  destruct (Nat.eqb_spec (length addr) ETH_ALEN) as [Hl|Hl]; cbn.
  - destruct (is_zero_addr addr); split; intros H; try done.
    + by right.
    + by destruct H.
  - split; [by left|done].
Qed.

(** C5. The address validation that a Fibre Channel device exposes
    through its header operations fails with [InvalidAddress] exactly when
    the address it examines has the wrong length or is all-zero, and
    succeeds otherwise. *)
Theorem fc_validate_address dev addr :
  exists ops,
    header_ops_at (header_ops (fc_setup dev)) = Some ops /\
    (validate ops addr = InvalidAddress <->
     length addr <> FC_ALEN \/ Forall (eq x00) addr) /\
    (validate ops addr = AddressOk <->
     length addr = FC_ALEN /\ ~ Forall (eq x00) addr).
Proof.
  exists fc_header_ops. split; [done|]. cbn [validate fc_header_ops].
  pose proof (eth_validate_addr_invalid addr) as Hinv.
  change ETH_ALEN with FC_ALEN in Hinv.
  split; [done|].
  destruct (eth_validate_addr addr) eqn:Hv.
  - split; [intros _|done]. split.
    + destruct (decide (length addr = FC_ALEN)) as [|Hne]; [done|].
      by assert (AddressOk = InvalidAddress) by (apply Hinv; by left).
    + intros Hz.
      by assert (AddressOk = InvalidAddress) by (apply Hinv; by right).
  - split; [done|]. intros [Hl Hz].
    destruct (proj1 Hinv eq_refl); done.
Qed.

(** What [fc_setup] assigns, for any value of the constants it takes from
    the kernel headers: the header length is [FC_HLEN], whatever that is. *)
Theorem fc_setup_constants dev :
  length (broadcast dev) = MAX_ADDR_LEN ->
  header_ops (fc_setup dev) = fc_header_ops_ref /\
  type (fc_setup dev) = ARPHRD_IEEE802 /\
  hard_header_len (fc_setup dev) = FC_HLEN /\
  addr_len (fc_setup dev) = FC_ALEN /\
  mtu (fc_setup dev) = 2024%Z /\
  tx_queue_len (fc_setup dev) = 100%Z /\
  flags (fc_setup dev) = IFF_BROADCAST /\
  Z.land (flags (fc_setup dev)) IFF_BROADCAST = IFF_BROADCAST /\
  take (addr_len (fc_setup dev)) (broadcast (fc_setup dev))
    = replicate (addr_len (fc_setup dev)) xff /\
  drop (addr_len (fc_setup dev)) (broadcast (fc_setup dev))
    = drop (addr_len (fc_setup dev)) (broadcast dev) /\
  dev_addr (fc_setup dev) = dev_addr dev.
Proof.
  intros Hlen. cbn [fc_setup header_ops type hard_header_len addr_len mtu
                    tx_queue_len flags broadcast dev_addr].
  split_and!; try done.
  - apply Z.land_diag.
  - unfold eth_broadcast_addr.
    rewrite <- (drop_0 (list_inserts _ _ _)).
    apply take_drop_inserts_same.
    + by rewrite length_replicate.
    + rewrite Hlen. unfold FC_ALEN, MAX_ADDR_LEN. lia.
  - unfold eth_broadcast_addr. apply list_eq. intros i.
    rewrite !lookup_drop. apply list_lookup_inserts_ge.
    rewrite length_replicate. unfold FC_ALEN, ETH_ALEN. lia.
Qed.

(** C10. The legacy allocator is the multi-queue allocator at one queue:
    for every size of private data, and in every state of the kernel,
    [alloc_fcdev] returns what [alloc_fcdev_mq] returns for a queue count
    of 1, which is the allocation of a device with one transmit and one
    receive queue. *)
Theorem alloc_fcdev_single sizeof_priv st :
  alloc_fcdev sizeof_priv st = alloc_fcdev_mq sizeof_priv 1 st /\
  alloc_fcdev sizeof_priv st = alloc_fcdev_single_queue sizeof_priv st.
Proof. split; reflexivity. Qed.

(* =================================================================== *)
(** ** Further properties of the header builder *)
(* =================================================================== *)

Lemma bind_ret_r (m : skbM unit) skb : bind m ret skb = m skb.
Proof. unfold bind, ret. by destruct (m skb) as [[[] s]|f]. Qed.

(** X1. When a destination address is given, the destination field of the
    header holds it over the device's hardware-address length. *)
Theorem fc_header_destination skb dev type daddr saddr len0 :
  fc_call_ok skb dev type (Some daddr) saddr ->
  exists skb',
    fc_header skb dev type (Some daddr) saddr len0
      = Ok (Z.of_nat (fc_hdr_len type), skb') /\
    frame_bytes skb' fch_daddr (addr_len dev) = take (addr_len dev) daddr.
Proof.
  intros Hok. pose proof Hok as (Hh & Hb & Hn & Hs & Hd).
  pose proof (length_fc_window skb type Hh Hb) as Hw.
  assert (H12 : sizeof_fch_hdr <= fc_hdr_len type)
    by (unfold fc_hdr_len; destruct (uses_snap type); lia).
  exists (fc_result skb dev type (Some daddr) saddr).
  split; [by apply fc_header_run|].
  rewrite frame_bytes_result by (done || (layout; lia)).
  by apply fc_image_daddr.
Qed.

(** X3. Resolving later: the header left by a call without destination,
    completed by a copy of the destination address into its destination
    field, is the header the call leaves when it is given the destination
    at once, in the same buffer. *)
Theorem fc_header_resolve_later skb dev type daddr saddr len0 :
  fc_call_ok skb dev type (Some daddr) saddr ->
  exists s1 s2,
    fc_header skb dev type None saddr len0
      = Ok ((- Z.of_nat (fc_hdr_len type))%Z, s1) /\
    memcpy (field (data s1) fch_daddr FC_ALEN) daddr (addr_len dev) s1
      = Ok (tt, s2) /\
    fc_header skb dev type (Some daddr) saddr len0
      = Ok (Z.of_nat (fc_hdr_len type), s2).
Proof.
  intros Hok. pose proof Hok as (Hh & Hb & Hn & Hs & Hd).
  pose proof (length_fc_window skb type Hh Hb) as Hw.
  assert (H12 : sizeof_fch_hdr <= fc_hdr_len type)
    by (unfold fc_hdr_len; destruct (uses_snap type); lia).
  exists (fc_result skb dev type None saddr),
    (fc_result skb dev type (Some daddr) saddr).
  split_and!.
  - apply fc_header_run. by split_and!.
  - rewrite <- bind_ret_r. unfold fc_result at 1 2, field; cbn [data].
    set (pre := take (data skb - fc_hdr_len type) (head skb)).
    assert (Hpre : length pre = data skb - fc_hdr_len type)
      by (unfold pre; rewrite length_take; lia).
    rewrite <- Hpre.
    rewrite bind_memcpy_window
      by (done || (rewrite length_fc_image; layout; lia)).
    unfold ret, fc_result. by rewrite Hpre.
  - by apply fc_header_run.
Qed.

(** X4. The value returned is never zero: it is positive exactly when the
    destination was given, and its magnitude, 12 or 20, is the number of
    bytes by which the frame has grown at its front. The tail of the frame
    stays where it was, and a frame that lay within its buffer still
    does. *)
Theorem fc_header_accounting skb dev type daddr saddr len0 :
  fc_call_ok skb dev type daddr saddr ->
  exists r skb',
    fc_header skb dev type daddr saddr len0 = Ok (r, skb') /\
    r <> 0%Z /\
    ((0 < r)%Z <-> daddr <> None) /\
    (Z.abs r = 12%Z \/ Z.abs r = 20%Z) /\
    (Z.abs r = 20%Z <-> type = ETH_P_IP \/ type = ETH_P_ARP) /\
    Z.of_nat (data skb) = (Z.of_nat (data skb') + Z.abs r)%Z /\
    Z.of_nat (len skb') = (Z.of_nat (len skb) + Z.abs r)%Z /\
    data skb' + len skb' = data skb + len skb /\
    (skb_wf skb -> skb_wf skb').
Proof.
  intros Hok. pose proof Hok as (Hh & Hb & _).
  exists (fc_retval type daddr), (fc_result skb dev type daddr saddr).
  split; [by apply fc_header_run|].
  assert (Hsnap : uses_snap type = true <->
                  type = ETH_P_IP \/ type = ETH_P_ARP).
  { split; [|apply uses_snap_ip_arp]. unfold uses_snap.
    intros [H|H]%orb_true_iff; apply Z.eqb_eq in H; auto. }
  assert (Hlen : fc_hdr_len type = 12 /\ uses_snap type = false \/
                 fc_hdr_len type = 20 /\ uses_snap type = true)
    by (unfold fc_hdr_len; destruct (uses_snap type); auto).
  assert (Habs : Z.abs (fc_retval type daddr) = Z.of_nat (fc_hdr_len type))
    by (unfold fc_retval; destruct daddr; lia).
  assert (Hpos : 0 < fc_hdr_len type) by (destruct Hlen as [[]|[]]; lia).
  rewrite Habs. unfold skb_wf. rewrite length_head_fc_result by done.
  cbn [fc_result data len]. split_and!.
  - unfold fc_retval. destruct daddr; lia.
  - unfold fc_retval. destruct daddr; split; (done || lia).
  - destruct Hlen as [[]|[]]; lia.
  - rewrite <- Hsnap. destruct Hlen as [[Hl Hu]|[Hl Hu]]; rewrite Hl, Hu;
      split; (done || lia).
  - lia.
  - lia.
  - lia.
  - lia.
Qed.

(** X5. Headroom decides: for a buffer whose frame starts within it, a
    device and addresses that fit, the call returns exactly when the
    headroom holds the header, 12 bytes, or 20 for IP and ARP; with less,
    the kernel panics in [skb_push]. Twenty bytes of headroom are enough
    for every protocol type. *)
Theorem fc_header_headroom skb dev type daddr saddr len0 :
  data skb <= length (head skb) ->
  addr_len dev <= FC_ALEN ->
  addr_len dev <= length (fc_source dev saddr) ->
  match daddr with Some d => addr_len dev <= length d | None => True end ->
  ((exists r skb', fc_header skb dev type daddr saddr len0 = Ok (r, skb'))
   <-> fc_hdr_len type <= data skb) /\
  (data skb < fc_hdr_len type ->
   fc_header skb dev type daddr saddr len0 = Fault skb_under_panic) /\
  (sizeof_fch_hdr + sizeof_fcllc <= data skb ->
   exists r skb', fc_header skb dev type daddr saddr len0 = Ok (r, skb')).
Proof.
  intros Hb Hn Hs Hd.
  assert (Hrun : fc_hdr_len type <= data skb ->
    exists r skb', fc_header skb dev type daddr saddr len0 = Ok (r, skb')).
  { intros Hh. eexists _, _. apply fc_header_run. by split_and!. }
  split_and!.
  - split; [|done]. intros (r & skb' & Hr).
    destruct (decide (fc_hdr_len type <= data skb)) as [|Hlt]; [done|].
    rewrite fc_header_short_headroom in Hr by lia. done.
  - apply fc_header_short_headroom.
  - intros H20. apply Hrun. unfold fc_hdr_len.
    destruct (uses_snap type); lia.
Qed.

(** X6. A protocol type other than IP and ARP leaves no trace: any two
    such types give the same outcome, header and return value alike. *)
Theorem fc_header_type_dropped skb dev type1 type2 daddr saddr len0 :
  type1 <> ETH_P_IP -> type1 <> ETH_P_ARP ->
  type2 <> ETH_P_IP -> type2 <> ETH_P_ARP ->
  fc_header skb dev type1 daddr saddr len0
  = fc_header skb dev type2 daddr saddr len0.
Proof.
  intros H1 H1' H2 H2'.
  pose proof (uses_snap_other _ H1 H1') as Hs1.
  pose proof (uses_snap_other _ H2 H2') as Hs2.
  unfold fc_header, fc_header_reserve, uses_snap in *.
  by rewrite Hs1, Hs2.
Qed.

(** X10. Of the device, a call uses the address length and, when no source
    address is passed, that many bytes of the device's address, and nothing
    else: two devices that agree on these give the same outcome. With a
    source address passed, the device's own address plays no part. *)
Theorem fc_header_device_use skb dev1 dev2 type daddr saddr len0 :
  addr_len dev1 = addr_len dev2 ->
  (saddr = None ->
   take (addr_len dev1) (dev_addr dev1)
   = take (addr_len dev1) (dev_addr dev2)) ->
  fc_header skb dev1 type daddr saddr len0
  = fc_header skb dev2 type daddr saddr len0.
Proof.
  intros Hn Ha. unfold fc_header, bind.
  destruct (fc_header_reserve type skb) as [[[fch hdr_len] s]|f]; [|done].
  unfold fc_header_addrs; cbn [fst snd]. rewrite <- Hn.
  destruct saddr as [a|]; [done|]. specialize (Ha eq_refl).
  assert (Hcopy :
    memcpy (field fch fch_saddr FC_ALEN) (dev_addr dev1) (addr_len dev1)
    = memcpy (field fch fch_saddr FC_ALEN) (dev_addr dev2) (addr_len dev1)).
  { unfold memcpy. rewrite Ha.
    assert (Hlen : (addr_len dev1 <=? length (dev_addr dev1))
                   = (addr_len dev1 <=? length (dev_addr dev2))).
    { apply (f_equal length) in Ha. rewrite !length_take in Ha.
      destruct (Nat.leb_spec (addr_len dev1) (length (dev_addr dev1))),
               (Nat.leb_spec (addr_len dev1) (length (dev_addr dev2)));
        (done || lia). }
    by rewrite Hlen. }
  by rewrite Hcopy.
Qed.

(** The frame a call leaves is the image of the window followed by the
    frame there was. *)
Lemma frame_bytes_result_all skb dev type daddr saddr :
  fc_hdr_len type <= data skb -> data skb <= length (head skb) ->
  frame_bytes (fc_result skb dev type daddr saddr) 0
              (len (fc_result skb dev type daddr saddr))
  = fc_image type dev daddr saddr (fc_window skb type) ++
    frame_bytes skb 0 (len skb).
Proof.
  intros Hh Hb. pose proof (length_fc_window skb type Hh Hb) as Hw.
  unfold frame_bytes, bytes_at, fc_result; cbn [head data len].
  set (pre := take (data skb - fc_hdr_len type) (head skb)).
  assert (Hpre : length pre = data skb - fc_hdr_len type)
    by (unfold pre; rewrite length_take; lia).
  rewrite !Nat.add_0_r, <- Hpre, drop_app_length.
  rewrite take_app_ge by (rewrite length_fc_image; lia).
  rewrite length_fc_image. f_equal. f_equal. lia.
Qed.

(** With addresses of the length of the fields every byte of the window
    is written. *)
Lemma fc_image_full type dev d saddr w :
  length w = fc_hdr_len type ->
  addr_len dev = FC_ALEN ->
  FC_ALEN <= length d ->
  FC_ALEN <= length (fc_source dev saddr) ->
  fc_image type dev (Some d) saddr w
  = fc_wire_header type d (fc_source dev saddr).
Proof.
  unfold fc_image, fc_wire_header, snap_header, snap_stores, fc_hdr_len.
  generalize (fc_source dev saddr). intros s Hw -> Hd Hs.
  do 6 (destruct d as [|? d]; [cbn in Hd; unfold FC_ALEN in Hd; lia|]).
  do 6 (destruct s as [|? s]; [cbn in Hs; unfold FC_ALEN in Hs; lia|]).
  destruct (uses_snap type).
  - do 20 (destruct w as [|? w]; [discriminate Hw|]).
    destruct w; [reflexivity|discriminate Hw].
  - do 12 (destruct w as [|? w]; [discriminate Hw|]).
    destruct w; [reflexivity|discriminate Hw].
Qed.

(** X2. The wire format: for a device whose address length is that of the
    fields and a destination given, the frame after the call is the
    destination address, the source address, for IP and ARP the 8-byte
    LLC/SNAP sub-header, and then the frame as it was before the call. *)
Theorem fc_header_wire_format skb dev type daddr saddr len0 :
  addr_len dev = FC_ALEN ->
  fc_call_ok skb dev type (Some daddr) saddr ->
  exists skb',
    fc_header skb dev type (Some daddr) saddr len0
      = Ok (Z.of_nat (fc_hdr_len type), skb') /\
    frame_bytes skb' 0 (len skb')
    = fc_wire_header type daddr (fc_source dev saddr) ++
      frame_bytes skb 0 (len skb).
Proof.
  intros Hlen Hok. pose proof Hok as (Hh & Hb & Hn & Hs & Hd).
  pose proof (length_fc_window skb type Hh Hb) as Hw.
  exists (fc_result skb dev type (Some daddr) saddr).
  split; [by apply fc_header_run|].
  rewrite frame_bytes_result_all by done.
  rewrite fc_image_full by (done || lia). done.
Qed.

Lemma fc_result_lookup_window skb dev type daddr saddr j :
  fc_hdr_len type <= data skb -> data skb <= length (head skb) ->
  j < fc_hdr_len type ->
  head (fc_result skb dev type daddr saddr) !! (data skb - fc_hdr_len type + j)
  = fc_image type dev daddr saddr (fc_window skb type) !! j /\
  head skb !! (data skb - fc_hdr_len type + j) = fc_window skb type !! j.
Proof.
  intros Hh Hb Hj. pose proof (length_fc_window skb type Hh Hb) as Hw.
  pose proof (head_split skb type Hh Hb) as Hsplit.
  apply (f_equal (fun l => l !! (data skb - fc_hdr_len type + j))) in Hsplit.
  rewrite Hsplit. unfold fc_result; cbn [head].
  set (pre := take (data skb - fc_hdr_len type) (head skb)).
  assert (Hpre : length pre = data skb - fc_hdr_len type)
    by (unfold pre; rewrite length_take; lia).
  rewrite !(lookup_app_r pre) by lia.
  rewrite !lookup_app_l by (rewrite ?length_fc_image; lia).
  split; f_equal; lia.
Qed.

Lemma fc_image_lookup_unwritten type dev daddr saddr w j :
  addr_len dev <= j < FC_ALEN \/
  FC_ALEN + addr_len dev <= j < sizeof_fch_hdr ->
  fc_image type dev daddr saddr w !! j = w !! j.
Proof.
  intros Hj. unfold fc_image, snap_stores.
  destruct Hj, daddr, (uses_snap type); layout;
    repeat first
      [ rewrite list_lookup_inserts_lt by lia
      | rewrite list_lookup_inserts_ge by (rewrite ?length_take; lia) ];
    done.
Qed.

(** X7. A device with a shorter address: the copies are of the device's
    address length, so the bytes of the two 6-byte address fields beyond
    that length are not written; they hold what the headroom held. *)
Theorem fc_header_short_address skb dev type daddr saddr len0 :
  fc_call_ok skb dev type daddr saddr ->
  exists r skb',
    fc_header skb dev type daddr saddr len0 = Ok (r, skb') /\
    forall i, addr_len dev <= i < FC_ALEN ->
      head skb' !! (data skb' + fch_daddr + i)
      = head skb !! (data skb' + fch_daddr + i) /\
      head skb' !! (data skb' + fch_saddr + i)
      = head skb !! (data skb' + fch_saddr + i).
Proof.
  intros Hok. pose proof Hok as (Hh & Hb & Hn & Hs & Hd).
  assert (H12 : sizeof_fch_hdr <= fc_hdr_len type)
    by (unfold fc_hdr_len; destruct (uses_snap type); lia).
  exists (fc_retval type daddr), (fc_result skb dev type daddr saddr).
  split; [by apply fc_header_run|]. intros i Hi.
  cbn [fc_result data]. rewrite <- !Nat.add_assoc.
  destruct (fc_result_lookup_window skb dev type daddr saddr (fch_daddr + i)
              Hh Hb) as [Hd1 Hd2]; [layout; lia|].
  destruct (fc_result_lookup_window skb dev type daddr saddr (fch_saddr + i)
              Hh Hb) as [Hs1 Hs2]; [layout; lia|].
  rewrite Hd1, Hd2, Hs1, Hs2.
  split; apply fc_image_lookup_unwritten; layout; lia.
Qed.

Lemma list_inserts_idemp {A} (k l : list A) :
  list_inserts 0 k (list_inserts 0 k l) = list_inserts 0 k l.
Proof.
  apply list_eq. intros i.
  destruct (decide (i < length l)) as [Hl|Hl].
  - destruct (decide (i < length k)) as [Hk|Hk].
    + by rewrite !list_lookup_inserts by (rewrite ?length_inserts; lia).
    + by rewrite !list_lookup_inserts_ge by lia.
  - rewrite !lookup_ge_None_2; [done|rewrite ?length_inserts; lia..].
Qed.

(** X8. Setting a device up twice is setting it up once. *)
Theorem fc_setup_idempotent dev : fc_setup (fc_setup dev) = fc_setup dev.
Proof.
  unfold fc_setup; cbn [broadcast dev_addr]. f_equal.
  apply list_inserts_idemp.
Qed.

(** X9. A device set up by [fc_setup] is one the header builder works
    with: whatever the device was before, if its hardware address holds 6
    bytes, then on a buffer with 20 bytes of headroom the call returns for
    every protocol type, and the frame starts with the destination, then
    the source passed or else the device's address, each of 6 bytes. *)
Theorem fc_setup_header dev0 skb type daddr saddr len0 :
  FC_ALEN <= length (dev_addr dev0) ->
  sizeof_fch_hdr + sizeof_fcllc <= data skb ->
  data skb <= length (head skb) ->
  FC_ALEN <= length daddr ->
  match saddr with Some a => FC_ALEN <= length a | None => True end ->
  exists skb',
    fc_header skb (fc_setup dev0) type (Some daddr) saddr len0
      = Ok (Z.of_nat (fc_hdr_len type), skb') /\
    frame_bytes skb' 0 (len skb')
    = fc_wire_header type daddr (fc_source dev0 saddr) ++
      frame_bytes skb 0 (len skb).
Proof.
  intros Hdev Hh Hb Hd Hs.
  assert (Hsrc : fc_source (fc_setup dev0) saddr = fc_source dev0 saddr)
    by (by destruct saddr).
  rewrite <- Hsrc. apply fc_header_wire_format; [done|].
  unfold fc_call_ok; cbn [fc_setup addr_len]. rewrite Hsrc. split_and!.
  - unfold fc_hdr_len. destruct (uses_snap type); lia.
  - done.
  - done.
  - by destruct saddr.
  - done.
Qed.

Lemma lookup_inserts_ext {A} p (bs l1 l2 : list A) j :
  length l1 = length l2 -> l1 !! j = l2 !! j ->
  list_inserts p bs l1 !! j = list_inserts p bs l2 !! j.
Proof.
  intros Hlen Hj.
  destruct (decide (p <= j < p + length bs)) as [Hin|Hout].
  - destruct (decide (j < length l1)) as [Hl|Hl].
    + by rewrite !list_lookup_inserts by lia.
    + rewrite !lookup_ge_None_2; [done|rewrite ?length_inserts; lia..].
  - destruct (decide (j < p)).
    + by rewrite !list_lookup_inserts_lt by lia.
    + by rewrite !list_lookup_inserts_ge by lia.
Qed.

Lemma htons_inj x y :
  (0 <= x < 65536)%Z -> (0 <= y < 65536)%Z -> htons x = htons y -> x = y.
Proof.
  intros Hx Hy Heq. apply (f_equal be_decode) in Heq.
  by rewrite !be_decode_htons_u16 in Heq.
Qed.

(** X11. What tells an IP frame from an ARP frame is the type field and
    nothing else: for two 16-bit protocol types that both get the SNAP
    sub-header, the calls return the same value, the headers agree on every
    byte in front of the type field, and the type fields are equal only if
    the types are. *)
Theorem fc_header_type_field skb dev type1 type2 daddr saddr len0 :
  (0 <= type1 < 65536)%Z -> (0 <= type2 < 65536)%Z ->
  uses_snap type1 = true -> uses_snap type2 = true ->
  fc_call_ok skb dev type1 daddr saddr ->
  exists r s1 s2,
    fc_header skb dev type1 daddr saddr len0 = Ok (r, s1) /\
    fc_header skb dev type2 daddr saddr len0 = Ok (r, s2) /\
    (forall j, j < sizeof_fch_hdr + fcllc_ethertype ->
       head s1 !! (data s1 + j) = head s2 !! (data s2 + j)) /\
    (frame_bytes s1 (sizeof_fch_hdr + fcllc_ethertype) 2
     = frame_bytes s2 (sizeof_fch_hdr + fcllc_ethertype) 2 ->
     type1 = type2).
Proof.
  intros Hu1 Hu2 Hs1 Hs2 Hok1.
  assert (Hlen : fc_hdr_len type2 = fc_hdr_len type1)
    by (unfold fc_hdr_len; by rewrite Hs1, Hs2).
  assert (Hok2 : fc_call_ok skb dev type2 daddr saddr)
    by (unfold fc_call_ok in *; by rewrite Hlen).
  pose proof Hok1 as (Hh1 & Hb & Hn & _). pose proof Hok2 as (Hh2 & _).
  assert (Hwin : fc_window skb type2 = fc_window skb type1)
    by (unfold fc_window; by rewrite Hlen).
  exists (fc_retval type1 daddr), (fc_result skb dev type1 daddr saddr),
    (fc_result skb dev type2 daddr saddr).
  split_and!.
  - by apply fc_header_run.
  - rewrite fc_header_run by done. unfold fc_retval. by rewrite Hlen.
  - intros j Hj. cbn [fc_result data].
    assert (Hjh1 : j < fc_hdr_len type1)
      by (unfold fc_hdr_len; rewrite Hs1; layout; lia).
    assert (Hjh2 : j < fc_hdr_len type2) by lia.
    destruct (fc_result_lookup_window skb dev type1 daddr saddr j Hh1 Hb Hjh1)
      as [H1 _].
    destruct (fc_result_lookup_window skb dev type2 daddr saddr j Hh2 Hb Hjh2)
      as [H2 _].
    rewrite H1, H2, Hwin.
    unfold fc_image, snap_stores. rewrite Hs1, Hs2.
    assert (Hty : forall w,
      list_inserts (sizeof_fch_hdr + fcllc_ethertype) (htons type1) w !! j
      = list_inserts (sizeof_fch_hdr + fcllc_ethertype) (htons type2) w !! j)
      by (intros w; by rewrite !list_lookup_inserts_lt by done).
    destruct daddr;
      repeat (apply lookup_inserts_ext; [by rewrite !length_inserts|]);
      apply Hty.
  - intros Heq.
    destruct (snap_populated_result skb dev type1 daddr saddr Hs1 Hok1)
      as (_ & _ & _ & _ & He1).
    destruct (snap_populated_result skb dev type2 daddr saddr Hs2 Hok2)
      as (_ & _ & _ & _ & He2).
    rewrite He1, He2 in Heq. by apply htons_inj.
Qed.

Lemma memcpy_take_ext p (a b : list byte) n :
  take n a = take n b -> memcpy p a n = memcpy p b n.
Proof.
  intros Heq. unfold memcpy. rewrite Heq.
  assert (Hlen : (n <=? length a) = (n <=? length b)).
  { apply (f_equal length) in Heq. rewrite !length_take in Heq.
    destruct (Nat.leb_spec n (length a)), (Nat.leb_spec n (length b));
      (done || lia). }
  by rewrite Hlen.
Qed.

(** X12. Of the addresses passed, a call reads as many bytes as the
    device's address is long: source or destination addresses that agree
    on those bytes give the same outcome, whatever follows them. *)
Theorem fc_header_address_prefix skb dev type d1 d2 a1 a2 len0 :
  take (addr_len dev) d1 = take (addr_len dev) d2 ->
  take (addr_len dev) a1 = take (addr_len dev) a2 ->
  fc_header skb dev type (Some d1) (Some a1) len0
  = fc_header skb dev type (Some d2) (Some a2) len0.
Proof.
  intros Hd Ha. unfold fc_header, bind.
  destruct (fc_header_reserve type skb) as [[[fch hdr_len] s]|f]; [|done].
  unfold fc_header_addrs; cbn [fst snd].
  by rewrite (memcpy_take_ext _ a1 a2), (memcpy_take_ext _ d1 d2).
Qed.

End FibreChannel.

(* ===================================================================== *)
(** ** Device set-up with the header length of the specification *)
(* ===================================================================== *)

Section FibreChannelSetup.

Variables ARPHRD_IEEE802 IFF_BROADCAST : Z.

Local Abbreviation setup :=
  (fc_setup ARPHRD_IEEE802 FC_HLEN_spec IFF_BROADCAST).

(** C7. [fc_setup] assigns the fixed constants, whatever the device was
    before: a header length equal to the hardware-header size, the address
    length [FC_ALEN], MTU 2024, transmit queue length 100, the broadcast
    flag, and a broadcast address of all-ones over the address length; the
    rest of the broadcast array and the device's address are as they were.
    It is a total function with no case distinction: there is no outcome
    other than the device set up. *)
Theorem fc_setup_parameters dev :
  length (broadcast dev) = MAX_ADDR_LEN ->
  header_ops (setup dev) = fc_header_ops_ref /\
  type (setup dev) = ARPHRD_IEEE802 /\
  hard_header_len (setup dev) = Z.of_nat sizeof_fch_hdr /\
  hard_header_len (setup dev) = 12%Z /\
  addr_len (setup dev) = FC_ALEN /\
  mtu (setup dev) = 2024%Z /\
  tx_queue_len (setup dev) = 100%Z /\
  flags (setup dev) = IFF_BROADCAST /\
  Z.land (flags (setup dev)) IFF_BROADCAST = IFF_BROADCAST /\
  take (addr_len (setup dev)) (broadcast (setup dev))
    = replicate (addr_len (setup dev)) xff /\
  drop (addr_len (setup dev)) (broadcast (setup dev))
    = drop (addr_len (setup dev)) (broadcast dev) /\
  dev_addr (setup dev) = dev_addr dev.
Proof.
  intros Hlen.
  cbn [fc_setup header_ops type hard_header_len addr_len mtu tx_queue_len
       flags broadcast dev_addr].
  split_and!; try reflexivity.
  - apply Z.land_diag.
  - unfold eth_broadcast_addr.
    rewrite <- (drop_0 (list_inserts _ _ _)).
    apply take_drop_inserts_same.
    + by rewrite length_replicate.
    + rewrite Hlen. unfold FC_ALEN, MAX_ADDR_LEN. lia.
  - unfold eth_broadcast_addr. apply list_eq. intros i.
    rewrite !lookup_drop. apply list_lookup_inserts_ge.
    rewrite length_replicate. unfold FC_ALEN, ETH_ALEN. lia.
Qed.

End FibreChannelSetup.

(* ===================================================================== *)
(** ** The results on concrete inputs *)
(* ===================================================================== *)

(** The inputs are those of the example of the specification: an IP packet
    (0x0800) for AA:BB:CC:DD:EE:FF sent from a device whose address is
    11:22:33:44:55:66, with the constants at the values the kernel headers
    give them (ARP 0x0806, extended SAP 0xAA, UI command 0x03). The header
    is 20 bytes and its type field holds 08 00. *)
Lemma fc_header_snap_resolved_witness :
  fc_call_ok 0x0800 0x0806 example_skb example_dev 0x0800
             (Some example_daddr) None /\
  exists skb',
    fc_header 0x0800 0x0806 xaa x03 example_skb example_dev 0x0800
              (Some example_daddr) None 4 = Ok (20%Z, skb') /\
    frame_bytes skb' 18 2 = [x08; x00] /\
    be_decode (frame_bytes skb' 18 2) = 0x0800%Z.
Proof.
  assert (Hok : fc_call_ok 0x0800 0x0806 example_skb example_dev 0x0800
                           (Some example_daddr) None)
    by (unfold fc_call_ok; vm_compute; split_and!; lia).
  split; [exact Hok|].
  destruct (fc_header_snap_resolved 0x0800 0x0806 xaa x03 example_skb
              example_dev 0x0800 example_daddr None 4
              ltac:(lia) ltac:(by left) Hok)
    as (skb' & Hrun & _ & _ & _ & _ & Hty & Hdec).
  exists skb'. split_and!; [exact Hrun|exact Hty|exact Hdec].
Defined.

(** An IPv6 packet (0x86DD) gets the 12-byte hardware header only. *)
Lemma fc_header_plain_resolved_witness :
  fc_call_ok 0x0800 0x0806 example_skb example_dev 0x86dd
             (Some example_daddr) None /\
  exists skb',
    fc_header 0x0800 0x0806 xaa x03 example_skb example_dev 0x86dd
              (Some example_daddr) None 4 = Ok (12%Z, skb') /\
    data skb' + 12 = 32 /\
    head skb' !! 32 = Some x45.
Proof.
  assert (Hok : fc_call_ok 0x0800 0x0806 example_skb example_dev 0x86dd
                           (Some example_daddr) None)
    by (unfold fc_call_ok; vm_compute; split_and!; lia).
  split; [exact Hok|].
  destruct (fc_header_plain_resolved 0x0800 0x0806 xaa x03 example_skb
              example_dev 0x86dd example_daddr None 4
              ltac:(lia) ltac:(lia) Hok)
    as (skb' & Hrun & Hdata & _ & _ & Hframe).
  exists skb'. split_and!; [exact Hrun|exact Hdata|].
  rewrite Hframe; [reflexivity|]. right. unfold sizeof_fch_hdr, FC_ALEN in *.
  cbn in Hdata. lia.
Defined.

(** With no destination the same IP call returns -20, and 20 once the
    destination is given. *)
Lemma fc_header_unresolved_witness :
  fc_call_ok 0x0800 0x0806 example_skb example_dev 0x0800 None None /\
  (exists skb',
     fc_header 0x0800 0x0806 xaa x03 example_skb example_dev 0x0800
               None None 4 = Ok ((-20)%Z, skb') /\
     frame_bytes skb' 6 6 = [x11; x22; x33; x44; x55; x66] /\
     frame_bytes skb' 0 6 = replicate 6 x5a) /\
  exists skb'',
    fc_header 0x0800 0x0806 xaa x03 example_skb example_dev 0x0800
              (Some example_daddr) None 4 = Ok (20%Z, skb'').
Proof.
  assert (Hok : fc_call_ok 0x0800 0x0806 example_skb example_dev 0x0800
                           None None)
    by (unfold fc_call_ok; vm_compute; split_and!; (lia || done)).
  split; [exact Hok|].
  destruct (fc_header_unresolved 0x0800 0x0806 xaa x03 example_skb
              example_dev 0x0800 None 4 Hok)
    as (skb' & Hrun & Hdata & _ & Hsrc & _ & Hdst & Hsome).
  split.
  - exists skb'. split_and!; [exact Hrun|exact Hsrc|].
    change (frame_bytes skb' fch_daddr FC_ALEN
            = bytes_at example_skb (data skb') 6) in Hdst.
    assert (Hd : data skb' = 12)
      by (change (data skb' + 20 = 32) in Hdata; lia).
    rewrite Hd in Hdst. exact Hdst.
  - destruct (Hsome example_daddr ltac:(cbn; lia)) as (skb'' & Hrun').
    exists skb''. exact Hrun'.
Defined.

(** The source field holds the device's address when none is passed, and
    the address passed otherwise. *)
Lemma fc_header_source_witness :
  (exists r skb',
     fc_header 0x0800 0x0806 xaa x03 example_skb example_dev 0x0800
               (Some example_daddr) None 4 = Ok (r, skb') /\
     frame_bytes skb' 6 6 = [x11; x22; x33; x44; x55; x66]) /\
  (exists r skb',
     fc_header 0x0800 0x0806 xaa x03 example_skb example_dev 0x0800
               (Some example_daddr) (Some [x01; x02; x03; x04; x05; x06]) 4
     = Ok (r, skb') /\
     frame_bytes skb' 6 6 = [x01; x02; x03; x04; x05; x06]).
Proof.
  split.
  - apply (fc_header_source 0x0800 0x0806 xaa x03 example_skb example_dev
             0x0800 (Some example_daddr) None 4).
    unfold fc_call_ok; vm_compute; split_and!; lia.
  - apply (fc_header_source 0x0800 0x0806 xaa x03 example_skb example_dev
             0x0800 (Some example_daddr)
             (Some [x01; x02; x03; x04; x05; x06]) 4).
    unfold fc_call_ok; vm_compute; split_and!; lia.
Defined.

(** The payload byte 0x45 at offset 32 is where it was, and the headroom in
    front of the header still holds 0x5A. *)
Lemma fc_header_frame_effect_witness :
  exists r skb',
    fc_header 0x0800 0x0806 xaa x03 example_skb example_dev 0x0800
              (Some example_daddr) None 4 = Ok (r, skb') /\
    head skb' !! 32 = Some x45 /\
    head skb' !! 0 = Some x5a /\
    fc_header 0x0800 0x0806 xaa x03 example_skb (with_mtu example_dev 1)
              0x0800 (Some example_daddr) None 9999 = Ok (r, skb').
Proof.
  destruct (fc_header_frame_effect 0x0800 0x0806 xaa x03 example_skb
              example_dev 0x0800 (Some example_daddr) None 4)
    as (r & skb' & Hrun & Hdata & _ & Hframe & _ & Hlen & Hmtu).
  { unfold fc_call_ok; vm_compute; split_and!; lia. }
  exists r, skb'. split_and!.
  - exact Hrun.
  - rewrite Hframe; [reflexivity|]. right. cbn. lia.
  - rewrite Hframe; [reflexivity|]. left.
    change (data skb' + 20 = 32) in Hdata. lia.
  - rewrite fc_header_mtu_unused. apply Hlen.
Defined.

(** Setting up a blank device. *)
Lemma fc_setup_constants_witness :
  length (broadcast example_blank_dev) = MAX_ADDR_LEN /\
  mtu (fc_setup 6 20 2 example_blank_dev) = 2024%Z /\
  tx_queue_len (fc_setup 6 20 2 example_blank_dev) = 100%Z /\
  take 6 (broadcast (fc_setup 6 20 2 example_blank_dev)) = replicate 6 xff.
Proof.
  assert (Hlen : length (broadcast example_blank_dev) = MAX_ADDR_LEN)
    by reflexivity.
  split; [exact Hlen|].
  destruct (fc_setup_constants 6 20 2 example_blank_dev Hlen)
    as (_ & _ & _ & _ & Hmtu & Hq & _ & _ & Hb & _).
  split_and!; [exact Hmtu|exact Hq|exact Hb].
Defined.

(** Two buffers that differ behind the tail of the frame only. *)
Lemma fc_header_deterministic_witness :
  skb_equiv example_skb example_skb' /\
  exists r s1' s2',
    fc_header 0x0800 0x0806 xaa x03 example_skb example_dev 0x0800
              None None 4 = Ok (r, s1') /\
    fc_header 0x0800 0x0806 xaa x03 example_skb' example_dev 0x0800
              None None 4 = Ok (r, s2') /\
    frame_bytes s1' 0 20 = frame_bytes s2' 0 20.
Proof.
  assert (Heq : skb_equiv example_skb example_skb')
    by (unfold skb_equiv; cbn; split_and!; reflexivity).
  split; [exact Heq|].
  destruct (fc_header_deterministic 0x0800 0x0806 xaa x03 example_skb
              example_skb' example_dev 0x0800 None None 4 Heq)
    as (r & s1' & s2' & H1 & H2 & Hhdr & _).
  { unfold fc_call_ok; vm_compute; split_and!; (lia || done). }
  { unfold fc_call_ok; vm_compute; split_and!; (lia || done). }
  exists r, s1', s2'. split_and!; [exact H1|exact H2|exact Hhdr].
Defined.

(** The destination field of the unresolved header holds the 0x5A the
    headroom held, not zero. *)
Lemma fc_header_unresolved_daddr_stale_witness :
  exists r skb',
    fc_header 0x0800 0x0806 xaa x03 example_skb example_dev 0x0800
              None None 4 = Ok (r, skb') /\
    head skb' !! (data skb' + 0) = Some x5a /\
    head skb' !! (data skb' + 5) = Some x5a.
Proof.
  destruct (fc_header_unresolved_daddr_stale 0x0800 0x0806 xaa x03
              example_skb example_dev 0x0800 None 4)
    as (r & skb' & Hrun & Hdata & Hstale).
  { unfold fc_call_ok; vm_compute; split_and!; (lia || done). }
  exists r, skb'. split_and!.
  - exact Hrun.
  - pose proof (Hstale 0 ltac:(unfold FC_ALEN; lia)) as H0.
    unfold fch_daddr in H0. rewrite Nat.add_0_r in H0. rewrite H0, Hdata.
    reflexivity.
  - pose proof (Hstale 5 ltac:(unfold FC_ALEN; lia)) as H5.
    unfold fch_daddr in H5. rewrite (Nat.add_0_r (data skb')) in H5.
    rewrite H5, Hdata. reflexivity.
Defined.


(** The wire format of the example: destination, source, the SNAP
    sub-header for IP, and the four bytes of the frame there was. *)
Lemma fc_header_destination_witness :
  exists skb',
    fc_header 0x0800 0x0806 xaa x03 example_skb example_dev 0x0800
              (Some example_daddr) None 4 = Ok (20%Z, skb') /\
    frame_bytes skb' 0 6 = example_daddr.
Proof.
  apply (fc_header_destination 0x0800 0x0806 xaa x03 example_skb example_dev
           0x0800 example_daddr None 4).
  unfold fc_call_ok; vm_compute; split_and!; lia.
Defined.

Lemma fc_header_wire_format_witness :
  exists skb',
    fc_header 0x0800 0x0806 xaa x03 example_skb example_dev 0x0800
              (Some example_daddr) None 4 = Ok (20%Z, skb') /\
    frame_bytes skb' 0 (len skb')
    = [xaa; xbb; xcc; xdd; xee; xff] ++ [x11; x22; x33; x44; x55; x66] ++
      [xaa; xaa; x03; x00; x00; x00; x08; x00] ++ [x45; x00; x00; x14].
Proof.
  apply (fc_header_wire_format 0x0800 0x0806 xaa x03 example_skb example_dev
           0x0800 example_daddr None 4).
  - reflexivity.
  - unfold fc_call_ok; vm_compute; split_and!; lia.
Defined.

Lemma fc_header_resolve_later_witness :
  exists s1 s2,
    fc_header 0x0800 0x0806 xaa x03 example_skb example_dev 0x0800
              None None 4 = Ok ((-20)%Z, s1) /\
    memcpy (field (data s1) fch_daddr FC_ALEN) example_daddr 6 s1
      = Ok (tt, s2) /\
    fc_header 0x0800 0x0806 xaa x03 example_skb example_dev 0x0800
              (Some example_daddr) None 4 = Ok (20%Z, s2).
Proof.
  apply (fc_header_resolve_later 0x0800 0x0806 xaa x03 example_skb
           example_dev 0x0800 example_daddr None 4).
  unfold fc_call_ok; vm_compute; split_and!; lia.
Defined.

Lemma fc_header_accounting_witness :
  exists r skb',
    fc_header 0x0800 0x0806 xaa x03 example_skb example_dev 0x0800
              None None 4 = Ok (r, skb') /\
    (r < 0)%Z /\ Z.abs r = 20%Z /\ data skb' + len skb' = 36.
Proof.
  destruct (fc_header_accounting 0x0800 0x0806 xaa x03 example_skb
              example_dev 0x0800 None None 4)
    as (r & skb' & Hrun & Hnz & Hpos & _ & H20 & _ & _ & Htail & _).
  { unfold fc_call_ok; vm_compute; split_and!; (lia || done). }
  exists r, skb'. split_and!.
  - exact Hrun.
  - destruct (Z_lt_le_dec 0 r) as [Hr|Hr]; [|lia].
    by destruct (proj1 Hpos Hr).
  - apply H20. by left.
  - exact Htail.
Defined.

(** Twelve bytes of headroom: an IP packet panics, an IPv6 packet goes
    through. *)
Lemma fc_header_headroom_witness :
  fc_header 0x0800 0x0806 xaa x03 example_tight_skb example_dev 0x0800
            (Some example_daddr) None 4 = Fault skb_under_panic /\
  exists r skb',
    fc_header 0x0800 0x0806 xaa x03 example_tight_skb example_dev 0x86dd
              (Some example_daddr) None 4 = Ok (r, skb').
Proof.
  split.
  - destruct (fc_header_headroom 0x0800 0x0806 xaa x03 example_tight_skb
                example_dev 0x0800 (Some example_daddr) None 4)
      as (_ & Hpanic & _); try (vm_compute; lia).
    apply Hpanic. vm_compute. lia.
  - destruct (fc_header_headroom 0x0800 0x0806 xaa x03 example_tight_skb
                example_dev 0x86dd (Some example_daddr) None 4)
      as (Hiff & _ & _); try (vm_compute; lia).
    apply Hiff. vm_compute. lia.
Defined.

(** IPv6 (0x86DD) and 802.1Q (0x8100) give the same frame. *)
Lemma fc_header_type_dropped_witness :
  fc_header 0x0800 0x0806 xaa x03 example_skb example_dev 0x86dd
            (Some example_daddr) None 4
  = fc_header 0x0800 0x0806 xaa x03 example_skb example_dev 0x8100
              (Some example_daddr) None 4.
Proof.
  apply (fc_header_type_dropped 0x0800 0x0806 xaa x03 example_skb
           example_dev 0x86dd 0x8100 (Some example_daddr) None 4); lia.
Defined.

(** With a 4-byte address the last two bytes of both address fields keep
    the 0x5A of the headroom. *)
Lemma fc_header_short_address_witness :
  exists r skb',
    fc_header 0x0800 0x0806 xaa x03 example_skb example_short_dev 0x0800
              (Some example_daddr) None 4 = Ok (r, skb') /\
    head skb' !! (data skb' + 4) = Some x5a /\
    head skb' !! (data skb' + 6 + 5) = Some x5a.
Proof.
  destruct (fc_header_short_address 0x0800 0x0806 xaa x03 example_skb
              example_short_dev 0x0800 (Some example_daddr) None 4)
    as (r & skb' & Hrun & Hstale).
  { unfold fc_call_ok; vm_compute; split_and!; lia. }
  assert (Hd : data skb' = 12).
  { pose proof Hrun as Hrun'. vm_compute in Hrun'.
    injection Hrun' as _ <-. reflexivity. }
  exists r, skb'. split_and!.
  - exact Hrun.
  - destruct (Hstale 4 ltac:(vm_compute; lia)) as [H4 _].
    unfold fch_daddr in H4. rewrite Nat.add_0_r in H4.
    rewrite H4, Hd. reflexivity.
  - destruct (Hstale 5 ltac:(vm_compute; lia)) as [_ H5].
    unfold fch_saddr, FC_ALEN in H5. rewrite H5, Hd. reflexivity.
Defined.

Lemma fc_setup_header_witness :
  exists skb',
    fc_header 0x0800 0x0806 xaa x03 example_skb
              (fc_setup 6 20 2 example_other_dev) 0x0806
              (Some example_daddr) None 4 = Ok (20%Z, skb') /\
    frame_bytes skb' 0 12
    = example_daddr ++ [x77; x88; x99; xaa; xbb; xcc].
Proof.
  destruct (fc_setup_header 0x0800 0x0806 xaa x03 6 20 2 example_other_dev
              example_skb 0x0806 example_daddr None 4)
    as (skb' & Hrun & Hframe); try (vm_compute; (lia || done)).
  exists skb'. split; [exact Hrun|].
  apply (f_equal (take 12)) in Hframe.
  unfold frame_bytes, bytes_at in *. rewrite take_take in Hframe.
  assert (Hl : len skb' = 24).
  { pose proof Hrun as Hrun'. vm_compute in Hrun'.
    injection Hrun' as <-. reflexivity. }
  rewrite Hl in Hframe. exact Hframe.
Defined.

(** With a source address passed, two devices of the same address length
    give the same outcome. *)
Lemma fc_header_device_use_witness :
  fc_header 0x0800 0x0806 xaa x03 example_skb example_dev 0x0800
            (Some example_daddr) (Some example_saddr) 4
  = fc_header 0x0800 0x0806 xaa x03 example_skb example_other_dev 0x0800
              (Some example_daddr) (Some example_saddr) 4.
Proof.
  apply (fc_header_device_use 0x0800 0x0806 xaa x03 example_skb example_dev
           example_other_dev 0x0800 (Some example_daddr)
           (Some example_saddr) 4).
  - reflexivity.
  - discriminate.
Defined.

Lemma fc_header_type_field_witness :
  exists r s1 s2,
    fc_header 0x0800 0x0806 xaa x03 example_skb example_dev 0x0800
              (Some example_daddr) None 4 = Ok (r, s1) /\
    fc_header 0x0800 0x0806 xaa x03 example_skb example_dev 0x0806
              (Some example_daddr) None 4 = Ok (r, s2) /\
    head s1 !! (data s1 + 17) = head s2 !! (data s2 + 17) /\
    frame_bytes s1 18 2 <> frame_bytes s2 18 2.
Proof.
  destruct (fc_header_type_field 0x0800 0x0806 xaa x03 example_skb
              example_dev 0x0800 0x0806 (Some example_daddr) None 4)
    as (r & s1 & s2 & H1 & H2 & Hsame & Hty);
    try (vm_compute; split_and?; (lia || done)).
  exists r, s1, s2. split_and!.
  - exact H1.
  - exact H2.
  - apply Hsame. vm_compute. lia.
  - intros Heq. specialize (Hty Heq). discriminate Hty.
Defined.

(** Bytes behind the sixth of an address passed are not read. *)
Lemma fc_header_address_prefix_witness :
  fc_header 0x0800 0x0806 xaa x03 example_skb example_dev 0x0800
            (Some example_daddr) (Some example_saddr) 4
  = fc_header 0x0800 0x0806 xaa x03 example_skb example_dev 0x0800
              (Some (example_daddr ++ [x00; x01]))
              (Some (example_saddr ++ [xff])) 4.
Proof.
  apply (fc_header_address_prefix 0x0800 0x0806 xaa x03 example_skb
           example_dev 0x0800); reflexivity.
Defined.

(** Setting up a blank device with the header length of the
    specification. *)
Lemma fc_setup_parameters_witness :
  length (broadcast example_blank_dev) = MAX_ADDR_LEN /\
  hard_header_len (fc_setup 6 FC_HLEN_spec 2 example_blank_dev) = 12%Z /\
  mtu (fc_setup 6 FC_HLEN_spec 2 example_blank_dev) = 2024%Z /\
  tx_queue_len (fc_setup 6 FC_HLEN_spec 2 example_blank_dev) = 100%Z /\
  take 6 (broadcast (fc_setup 6 FC_HLEN_spec 2 example_blank_dev))
    = replicate 6 xff.
Proof.
  assert (Hlen : length (broadcast example_blank_dev) = MAX_ADDR_LEN)
    by reflexivity.
  split; [exact Hlen|].
  destruct (fc_setup_parameters 6 2 example_blank_dev Hlen)
    as (_ & _ & _ & Hh & _ & Hmtu & Hq & _ & _ & Hb & _).
  split_and!; [exact Hh|exact Hmtu|exact Hq|exact Hb].
Defined.
